(** * InterCom: binaural decorrelation, wavelet stage and sign-magnitude packing

    Shallow embedding of [intercom_binaural.py] and [intercom_dwt.py].

    - NumPy integer arrays are lists of [Z]; every operation that NumPy
      performs in a fixed-width element type has its wrap-around written
      out ([wrap]).  A stereo chunk (shape frames x 2) is a list of rows
      [(channel 0, channel 1)].
    - Python exceptions are values of [exn]; fallible code returns
      [result].
    - The methods inherited from the classes that are not part of these
      two files ([send], [play], the parent [init]) and the PyWavelets
      calls are parameters of the sections that use them. *)

From Stdlib Require Import ZArith List Bool Lia String Floats.
From stdpp Require Import base list.
Import ListNotations.
Local Open Scope Z_scope.

(** ** Exceptions *)

Inductive exn : Set :=
| IndexError
| ValueError
| ZeroDivisionError
| OverflowError.

Inductive result (A : Type) : Type :=
| Ok (a : A)
| Raise (e : exn).
Arguments Ok {A} a.
Arguments Raise {A} e.

Definition rbind {A B : Type} (r : result A) (k : A -> result B) : result B :=
  match r with
  | Ok a => k a
  | Raise e => Raise e
  end.

Declare Scope result_scope.
Delimit Scope result_scope with result.
Notation "'let!' x ':=' c 'in' k" := (rbind c (fun x => k))
  (at level 10, x name, c at level 100, k at level 200) : result_scope.

(** ** Fixed-width two's-complement integers *)

Module FixedWidth.

(** The value a [w]-bit signed NumPy element holds after an operation
    whose mathematical result is [z]. *)
Definition wrap (w : Z) (z : Z) : Z :=
  (z + 2 ^ (w - 1)) mod 2 ^ w - 2 ^ (w - 1).

Definition in_range (w : Z) (z : Z) : Prop :=
  - 2 ^ (w - 1) <= z < 2 ^ (w - 1).

Definition int16 : Z -> Z := wrap 16.

End FixedWidth.
Import FixedWidth.

(** ** Bitplane packer and unpacker (intercom_dwt.py, lines 114-121) *)

Module Packer.

(** [signs = indata & 0x8000]: the operand 0x8000 does not fit the
    16-bit element type, so NumPy computes the conjunction in a wider
    signed type, on the sign-extended sample. *)
Definition pack_signs (x : Z) : Z := Z.land x 32768.

(** [magnitudes = abs(indata)], computed in the 16-bit element type. *)
Definition pack_magnitudes (x : Z) : Z := int16 (Z.abs x).

(** [indata = signs | magnitudes] *)
Definition pack (x : Z) : Z := Z.lor (pack_signs x) (pack_magnitudes x).

(** [signs = chunk >> 15] (arithmetic shift of the stored word) *)
Definition unpack_signs (c : Z) : Z := Z.shiftr c 15.

(** [magnitudes = chunk & 0x7FFF] *)
Definition unpack_magnitudes (c : Z) : Z := Z.land c 32767.

(** [magnitudes + magnitudes*signs*2], in the 16-bit element type. *)
Definition recombine (m s : Z) : Z := int16 (m + int16 (int16 (m * s) * 2)).

(** [chunk = magnitudes + magnitudes*signs*2] *)
Definition unpack (c : Z) : Z :=
  recombine (unpack_magnitudes c) (unpack_signs c).

(** Modelled from the spec: the cell type of the jitter buffer, which
    the buffer class (not part of these files) declares.  The spec
    gives 16-bit signed samples ("sample values in [-32768, 32767]",
    "storage precision (bit width) of samples/coefficients"), and
    the transport delivers a packed word bitplane by bitplane, so a
    fully received word sits in the cell as the 16-bit signed reading
    of its low 16 bits. *)
Definition buffer_cell (packed : Z) : Z := int16 packed.

Definition pack_chunk (a : list (Z * Z)) : list (Z * Z) :=
  map (fun r => (pack (fst r), pack (snd r))) a.

Definition unpack_chunk (a : list (Z * Z)) : list (Z * Z) :=
  map (fun r => (unpack (fst r), unpack (snd r))) a.

Definition buffer_chunk (a : list (Z * Z)) : list (Z * Z) :=
  map (fun r => (buffer_cell (fst r), buffer_cell (snd r))) a.

End Packer.

(** ** Python sequences *)

(** [a % b] on Python integers: the sign follows the divisor, as for
    [Z.modulo]. *)
Definition py_mod (a b : Z) : result Z :=
  if b =? 0 then Raise ZeroDivisionError else Ok (a mod b).

(** Position that index [i] denotes in a sequence of [len] items:
    negative indices count from the end. *)
Definition py_index (len : nat) (i : Z) : result nat :=
  if (0 <=? i) && (i <? Z.of_nat len) then Ok (Z.to_nat i)
  else if (- Z.of_nat len <=? i) && (i <? 0) then Ok (Z.to_nat (Z.of_nat len + i))
  else Raise IndexError.

(** [l[i]] *)
Definition py_getitem {A : Type} (l : list A) (i : Z) : result A :=
  (let! n := py_index (length l) i in
   match l !! n with
   | Some a => Ok a
   | None => Raise IndexError
   end)%result.

(** [l[i] = v] *)
Definition py_setitem {A : Type} (l : list A) (i : Z) (v : A) : result (list A) :=
  (let! n := py_index (length l) i in Ok (<[n := v]> l))%result.

(** ** Stereo chunks *)

Inductive channel : Set := Ch0 | Ch1.

(** A chunk of shape frames x 2: one row per frame. *)
Definition chunk : Type := list (Z * Z).

Definition col (c : channel) (r : Z * Z) : Z :=
  match c with Ch0 => fst r | Ch1 => snd r end.

Definition set_col (c : channel) (v : Z) (r : Z * Z) : Z * Z :=
  match c with Ch0 => (v, snd r) | Ch1 => (fst r, v) end.

(** [a[:,c]] *)
Definition column (c : channel) (a : chunk) : list Z := map (col c) a.

(** [a[:,dst] -= a[:,src]] in a [w]-bit element type *)
Definition isub_col (w : Z) (dst src : channel) (a : chunk) : chunk :=
  map (fun r => set_col dst (wrap w (col dst r - col src r)) r) a.

(** [a[:,dst] += a[:,src]] in a [w]-bit element type *)
Definition iadd_col (w : Z) (dst src : channel) (a : chunk) : chunk :=
  map (fun r => set_col dst (wrap w (col dst r + col src r)) r) a.

Fixpoint zip_col (c : channel) (v : list Z) (a : chunk) : chunk :=
  match v, a with
  | x :: v', r :: a' => set_col c x r :: zip_col c v' a'
  | _, _ => []
  end.

(** [a[:,c] = v]: the lengths agree, or [v] has one element that is
    broadcast to every row; NumPy raises ValueError otherwise. *)
Definition assign_col (c : channel) (v : list Z) (a : chunk) : result chunk :=
  if Nat.eqb (length v) (length a) then Ok (zip_col c v a)
  else match v with
       | [x] => Ok (map (set_col c x) a)
       | _ => Raise ValueError
       end.

(** ** Session object *)

(** The bound method that [self.record_send_and_play] refers to. *)
Inductive callback : Set :=
| inherited_record_send_and_play   (* whatever the parent classes left *)
| stereo_record_send_and_play.     (* [self.record_send_and_play_stereo] *)

(** The attributes of [self] that the two files read or assign.  Cells
    of [_buffer] are modelled as distinct arrays. *)
Record session : Type := {
  number_of_channels : Z;
  frames_per_chunk : Z;
  cells_in_buffer : Z;
  played_chunk_number : Z;
  _buffer : list chunk;
  received_bitplanes_per_chunk : list Z;
  record_send_and_play : callback;
  levels : Z;
  wavelet : string;
  overlap : Z;
  padding : string;
  precision_type : Z;           (* bit width of the NumPy integer type *)
  extended_chunk_size : Z;
  precision_bits : Z;
  slices : list (Z * Z)         (* start and stop of each subband *)
}.

Definition set_buffer (b : list chunk) (self : session) : session :=
  {| number_of_channels := number_of_channels self;
     frames_per_chunk := frames_per_chunk self;
     cells_in_buffer := cells_in_buffer self;
     played_chunk_number := played_chunk_number self;
     _buffer := b;
     received_bitplanes_per_chunk := received_bitplanes_per_chunk self;
     record_send_and_play := record_send_and_play self;
     levels := levels self; wavelet := wavelet self; overlap := overlap self;
     padding := padding self; precision_type := precision_type self;
     extended_chunk_size := extended_chunk_size self;
     precision_bits := precision_bits self; slices := slices self |}.

Definition set_received_bitplanes_per_chunk (c : list Z) (self : session) : session :=
  {| number_of_channels := number_of_channels self;
     frames_per_chunk := frames_per_chunk self;
     cells_in_buffer := cells_in_buffer self;
     played_chunk_number := played_chunk_number self;
     _buffer := _buffer self;
     received_bitplanes_per_chunk := c;
     record_send_and_play := record_send_and_play self;
     levels := levels self; wavelet := wavelet self; overlap := overlap self;
     padding := padding self; precision_type := precision_type self;
     extended_chunk_size := extended_chunk_size self;
     precision_bits := precision_bits self; slices := slices self |}.

Definition set_record_send_and_play (cb : callback) (self : session) : session :=
  {| number_of_channels := number_of_channels self;
     frames_per_chunk := frames_per_chunk self;
     cells_in_buffer := cells_in_buffer self;
     played_chunk_number := played_chunk_number self;
     _buffer := _buffer self;
     received_bitplanes_per_chunk := received_bitplanes_per_chunk self;
     record_send_and_play := cb;
     levels := levels self; wavelet := wavelet self; overlap := overlap self;
     padding := padding self; precision_type := precision_type self;
     extended_chunk_size := extended_chunk_size self;
     precision_bits := precision_bits self; slices := slices self |}.

Definition set_slices (sl : list (Z * Z)) (self : session) : session :=
  {| number_of_channels := number_of_channels self;
     frames_per_chunk := frames_per_chunk self;
     cells_in_buffer := cells_in_buffer self;
     played_chunk_number := played_chunk_number self;
     _buffer := _buffer self;
     received_bitplanes_per_chunk := received_bitplanes_per_chunk self;
     record_send_and_play := record_send_and_play self;
     levels := levels self; wavelet := wavelet self; overlap := overlap self;
     padding := padding self; precision_type := precision_type self;
     extended_chunk_size := extended_chunk_size self;
     precision_bits := precision_bits self; slices := sl |}.

Definition set_precision_bits (b : Z) (self : session) : session :=
  {| number_of_channels := number_of_channels self;
     frames_per_chunk := frames_per_chunk self;
     cells_in_buffer := cells_in_buffer self;
     played_chunk_number := played_chunk_number self;
     _buffer := _buffer self;
     received_bitplanes_per_chunk := received_bitplanes_per_chunk self;
     record_send_and_play := record_send_and_play self;
     levels := levels self; wavelet := wavelet self; overlap := overlap self;
     padding := padding self; precision_type := precision_type self;
     extended_chunk_size := extended_chunk_size self;
     precision_bits := b; slices := slices self |}.

(** ** intercom_binaural.py *)

Module Binaural.
Section Intercom_binaural.

(** Methods of the parent classes. *)
Variable Args : Type.
Variable Intercom_bitplanes_init : Args -> session -> result session.
Variable send : chunk -> session -> result session.
Variable play : chunk -> session -> result (chunk * session).

(** [init] (lines 16-20); the message it prints is left out. *)
Definition init (args : Args) (self : session) : result session :=
  (let! self := Intercom_bitplanes_init args self in
   if number_of_channels self =? 2
   then Ok (set_record_send_and_play stereo_record_send_and_play self)
   else Ok self)%result.

(** [record_send_and_play_stereo] (lines 23-27).  The arguments
    [frames], [time] and [status] are not used.  The result is the
    content of [outdata] and the session after the call. *)
Definition record_send_and_play_stereo (indata outdata : chunk) (self : session)
  : result (chunk * session) :=
  (let indata := isub_col 16 Ch0 Ch1 indata in
   let! self := send indata self in
   let! i := py_mod (played_chunk_number self) (cells_in_buffer self) in
   let! cell := py_getitem (_buffer self) i in
   let! buffer := py_setitem (_buffer self) i (iadd_col 16 Ch0 Ch1 cell) in
   let self := set_buffer buffer self in
   play outdata self)%result.

End Intercom_binaural.
End Binaural.

(** ** intercom_dwt.py *)

Module DWT.

(** *** Python's [math] module on binary64 values *)

(** [math.log(x)]: a domain error for every [x <= 0]; [libm_log] is
    the platform's logarithm. *)
Definition math_log (libm_log : float -> float) (x : float) : result float :=
  if PrimFloat.leb x 0%float then Raise ValueError else Ok (libm_log x).

(** [a / b] on floats. *)
Definition py_truediv (a b : float) : result float :=
  if PrimFloat.eqb b 0%float then Raise ZeroDivisionError
  else Ok (PrimFloat.div a b).

(** [int(math.floor(x))] *)
Definition math_floor (x : float) : result Z :=
  match Prim2SF x with
  | S754_zero _ => Ok 0
  | S754_infinity _ => Raise OverflowError
  | S754_nan => Raise ValueError
  | S754_finite s m e => Ok (Z.shiftl (if s then Z.neg m else Z.pos m) e)
  end.

(** *** NumPy reductions *)

Definition fmax (a b : float) : float :=
  if PrimFloat.is_nan a then a
  else if PrimFloat.is_nan b then b
  else if PrimFloat.ltb a b then b else a.

Definition fmin (a b : float) : float :=
  if PrimFloat.is_nan a then a
  else if PrimFloat.is_nan b then b
  else if PrimFloat.ltb b a then b else a.

(** [np.amax(arr)], [np.amin(arr)]: no identity for an empty array. *)
Definition np_amax (arr : list float) : result float :=
  match arr with
  | [] => Raise ValueError
  | x :: xs => Ok (fold_left fmax xs x)
  end.

Definition np_amin (arr : list float) : result float :=
  match arr with
  | [] => Raise ValueError
  | x :: xs => Ok (fold_left fmin xs x)
  end.

(** *** PyWavelets: flattening of one-dimensional coefficients *)

Fixpoint slices_from (start : Z) (coeffs : list (list float)) : list (Z * Z) :=
  match coeffs with
  | [] => []
  | c :: cs =>
      let stop := start + Z.of_nat (length c) in
      (start, stop) :: slices_from stop cs
  end.

(** [wt.coeffs_to_array(coeffs)]: the subbands one after the other,
    and where each one starts and stops. *)
Definition wt_coeffs_to_array (coeffs : list (list float))
  : result (list float * list (Z * Z)) :=
  match coeffs with
  | [] => Raise ValueError
  | _ => Ok (concat coeffs, slices_from 0 coeffs)
  end.

(** Subband lengths of a [level]-deep decomposition of [n] samples
    when every level halves the length, rounding up: approximation
    first, then the details from the coarsest to the finest. *)
Definition half_up (n : nat) : nat := Nat.div2 (S n).

Fixpoint wavedec_lengths (level : nat) (n : nat) : list nat :=
  match level with
  | O => [n]
  | S l => wavedec_lengths l (half_up n) ++ [half_up n]
  end.

Section Intercom_DWT.

(** Methods of the parent classes. *)
Variable Args : Type.
Variable Intercom_empty_init : Args -> session -> result session.
Variable send : chunk -> session -> result session.
Variable play : chunk -> session -> result (chunk * session).
Variable run : session -> result session.

(** Library calls: the probe drawn by [np.random.randint(low, high,
    size)], PyWavelets' analysis and synthesis, the platform's
    logarithm, and NumPy's conversions of binary64 values to integer
    element types. *)
Variable np_random_randint : Z -> Z -> Z -> result (list Z).
Variable wt_wavedec : list Z -> string -> Z -> string -> result (list (list float)).
Variable wt_array_to_coeffs :
  chunk -> list (Z * Z) -> string -> result (list (list (float * float))).
Variable wt_waverec :
  list (list (float * float)) -> string -> string -> result (list (float * float)).
Variable libm_log : float -> float.
Variable astype_int16 : float -> Z.           (* cast on assignment to a column *)
Variable around_astype : Z -> float -> Z.     (* [np.around(x).astype(t)] *)

(** [forward_transform] (lines 128-130) *)
Definition forward_transform (self : session) (chunk : list Z) : result (list float) :=
  (let! coeffs_in_subbands :=
     wt_wavedec chunk (wavelet self) (levels self) (padding self) in
   let! flat := wt_coeffs_to_array coeffs_in_subbands in
   Ok (fst flat))%result.

(** [inverse_transform] (lines 132-134) *)
Definition inverse_transform (self : session) (coeffs_in_array : chunk) : result chunk :=
  (let! coeffs_in_subbands :=
     wt_array_to_coeffs coeffs_in_array (slices self) "wavedec" in
   let! rec := wt_waverec coeffs_in_subbands (wavelet self) (padding self) in
   Ok (map (fun r => (around_astype (precision_type self) (fst r),
                      around_astype (precision_type self) (snd r))) rec))%result.

(** [get_coeffs_bitplanes], lines 94-99: the range of the probe's
    coefficients; [self.slices] is assigned on the way. *)
Definition probe_range (self : session) : result (float * session) :=
  (let! random := np_random_randint (-32768) 32767 (frames_per_chunk self) in
   let! coeffs := wt_wavedec random (wavelet self) (levels self) (padding self) in
   let! flat := wt_coeffs_to_array coeffs in
   let arr := fst flat in
   let self := set_slices (snd flat) self in
   let! max := np_amax arr in
   let! min := np_amin arr in
   Ok (PrimFloat.sub max min, self))%result.

(** [get_coeffs_bitplanes], line 100:
    [int(math.floor(math.log(range)/math.log(2)))] *)
Definition bitplanes_of_range (range : float) : result Z :=
  (let! num := math_log libm_log range in
   let! den := math_log libm_log 2%float in
   let! quot := py_truediv num den in
   math_floor quot)%result.

(** [get_coeffs_bitplanes] (lines 93-101) *)
Definition get_coeffs_bitplanes (self : session) : result (Z * session) :=
  (let! r := probe_range self in
   let! bitplanes := bitplanes_of_range (fst r) in
   Ok (bitplanes, snd r))%result.

(** The assignments of [init], lines 82-87. *)
Definition set_dwt_constants (self : session) : session :=
  {| number_of_channels := number_of_channels self;
     frames_per_chunk := frames_per_chunk self;
     cells_in_buffer := cells_in_buffer self;
     played_chunk_number := played_chunk_number self;
     _buffer := _buffer self;
     received_bitplanes_per_chunk := received_bitplanes_per_chunk self;
     record_send_and_play := record_send_and_play self;
     levels := 4;
     wavelet := "bior3.5";
     overlap := 4;
     padding := "periodization";
     precision_type := 32;
     extended_chunk_size := frames_per_chunk self + 4;
     precision_bits := precision_bits self;
     slices := slices self |}.

(** [init] (lines 80-90); the messages it prints are left out. *)
Definition init (args : Args) (self : session) : result session :=
  (let! self := Intercom_empty_init args self in
   let self := set_dwt_constants self in
   let! r := get_coeffs_bitplanes self in
   Ok (set_precision_bits (fst r) (snd r)))%result.

(** The script (lines 136-141), from a fresh object and parsed
    arguments. *)
Definition main (args : Args) (intercom : session) : result session :=
  (let! intercom := init args intercom in run intercom)%result.

(** [record_send_and_play_stereo] (lines 111-126).  The arguments
    [frames], [time] and [status] are not used.  The result is the
    content of [outdata] and the session after the call.  Lines 118 to
    124 evaluate [played_chunk_number % cells_in_buffer] again and
    again with nothing in between that assigns either attribute: the
    index [i] is computed once.  Line 126 evaluates it after [play]
    returned: that is [j]. *)
Definition record_send_and_play_stereo (indata outdata : chunk) (self : session)
  : result (chunk * session) :=
  (let indata := isub_col 16 Ch1 Ch0 indata in
   let! coeffs := forward_transform self (column Ch0 indata) in
   let! indata := assign_col Ch0 (map astype_int16 coeffs) indata in
   let indata := Packer.pack_chunk indata in
   let! self := send indata self in
   let! i := py_mod (played_chunk_number self) (cells_in_buffer self) in
   let! chunk := py_getitem (_buffer self) i in
   let chunk := Packer.unpack_chunk chunk in
   let! buffer := py_setitem (_buffer self) i chunk in
   let self := set_buffer buffer self in
   let! cell := py_getitem (_buffer self) i in
   let! buffer := py_setitem (_buffer self) i (iadd_col 16 Ch1 Ch0 cell) in
   let self := set_buffer buffer self in
   let! cell := py_getitem (_buffer self) i in
   let! restored := inverse_transform self cell in
   let! buffer := py_setitem (_buffer self) i restored in
   let self := set_buffer buffer self in
   let! played := play outdata self in
   let self := snd played in
   let! j := py_mod (played_chunk_number self) (cells_in_buffer self) in
   let! counters := py_setitem (received_bitplanes_per_chunk self) j 0 in
   Ok (fst played, set_received_bitplanes_per_chunk counters self))%result.

End Intercom_DWT.
End DWT.

(** ** The play path, in two orders *)

(** What lines 119-124 compute from the buffered cell: unpack, add
    channel 0 to channel 1, then hand the whole cell to the inverse
    transform. *)
Definition play_path (inverse : chunk -> result chunk) (cell : chunk) : result chunk :=
  inverse (iadd_col 16 Ch1 Ch0 (Packer.unpack_chunk cell)).

(** The order the specification words: unpack, inverse-transform
    channel 0 alone, then add it to channel 1. *)
Definition play_path_spec_order (inverse0 : list Z -> result (list Z)) (cell : chunk)
  : result chunk :=
  (let chunk := Packer.unpack_chunk cell in
   let! restored0 := inverse0 (column Ch0 chunk) in
   let! chunk := assign_col Ch0 restored0 chunk in
   Ok (iadd_col 16 Ch1 Ch0 chunk))%result.

(** ** Stand-ins for the collaborators, used to run the model *)

Module Doubles.

Definition of_Z (z : Z) : float :=
  if z <? 0 then PrimFloat.opp (PrimFloat.of_uint63 (Uint63.of_Z (- z)))
  else PrimFloat.of_uint63 (Uint63.of_Z z).

Definition parent_init (_ : unit) (self : session) : result session := Ok self.

Definition run (self : session) : result session := Ok self.

(** A transport that delivers every bitplane of the sent chunk into
    the cell that is played next. *)
Definition loopback_send (indata : chunk) (self : session) : result session :=
  (let! i := py_mod (played_chunk_number self) (cells_in_buffer self) in
   let! buffer := py_setitem (_buffer self) i (Packer.buffer_chunk indata) in
   Ok (set_buffer buffer self))%result.

(** A device that copies the cell to [outdata]. *)
Definition device_play (outdata : chunk) (self : session) : result (chunk * session) :=
  (let! i := py_mod (played_chunk_number self) (cells_in_buffer self) in
   let! cell := py_getitem (_buffer self) i in
   Ok (cell, self))%result.

(** A probe that is constant zero. *)
Definition zero_probe (low high size : Z) : result (list Z) :=
  Ok (repeat 0 (Z.to_nat size)).

(** An exactly invertible toy transform: one subband, every value
    negated; the synthesis negates every column it is given.  It is
    not PyWavelets: it keeps the length at every level, and its
    synthesis accepts a two-column cell, which PyWavelets' [waverec]
    refuses ([checking_waverec] below). *)
Definition negating_wavedec (x : list Z) (wavelet : string) (level : Z) (mode : string)
  : result (list (list float)) :=
  Ok [map (fun z => of_Z (- z)) x].

Definition negating_array_to_coeffs (a : chunk) (sl : list (Z * Z)) (format : string)
  : result (list (list (float * float))) :=
  Ok [map (fun r => (of_Z (fst r), of_Z (snd r))) a].

Definition negating_waverec (coeffs : list (list (float * float))) (wavelet mode : string)
  : result (list (float * float)) :=
  Ok (map (fun r => (PrimFloat.opp (fst r), PrimFloat.opp (snd r))) (concat coeffs)).

Definition negating_inverse0 (x : list Z) : result (list Z) :=
  Ok (map Z.opp x).

(** An analysis that only has the right shape: zeros, in subbands
    that halve at every level. *)
Definition shaped_wavedec (x : list Z) (wavelet : string) (level : Z) (mode : string)
  : result (list (list float)) :=
  match x with
  | [] => Raise ValueError
  | _ => Ok (map (fun n => repeat 0%float n)
                 (DWT.wavedec_lengths (Z.to_nat level) (length x)))
  end.

(** The integer part of a finite value, toward zero. *)
Definition truncate (f : float) : Z :=
  match Prim2SF f with
  | S754_finite s m e =>
      let magnitude := Z.shiftl (Z.pos m) e in
      if s then - magnitude else magnitude
  | _ => 0
  end.

(** The nearest integer of a finite value, ties to the even one. *)
Definition round_half_even (f : float) : Z :=
  match Prim2SF f with
  | S754_finite s m e =>
      let magnitude :=
        if 0 <=? e then Z.shiftl (Z.pos m) e
        else
          let d := 2 ^ (- e) in
          let q := Z.pos m / d in
          let r := Z.pos m mod d in
          if 2 * r <? d then q
          else if d <? 2 * r then q + 1
          else if Z.even q then q else q + 1 in
      if s then - magnitude else magnitude
  | _ => 0
  end.

(** The cast of an assignment into a 16-bit column: toward zero. *)
Definition astype_int16 (f : float) : Z := int16 (truncate f).

(** [np.around(x).astype(t)]: half to even, then the cast. *)
Definition around_astype (w : Z) (f : float) : Z := wrap w (round_half_even f).

Definition libm_log (x : float) : float := x.

(** A two-cell stereo session with one frame per chunk, about to
    play cell 1. *)
Definition stereo_session : session :=
  {| number_of_channels := 2;
     frames_per_chunk := 1;
     cells_in_buffer := 2;
     played_chunk_number := 3;
     _buffer := [[(0, 0)]; [(0, 0)]];
     received_bitplanes_per_chunk := [5; 9];
     record_send_and_play := inherited_record_send_and_play;
     levels := 4;
     wavelet := "bior3.5";
     overlap := 4;
     padding := "periodization";
     precision_type := 32;
     extended_chunk_size := 5;
     precision_bits := 0;
     slices := [] |}.

Definition mono_session : session :=
  {| number_of_channels := 1;
     frames_per_chunk := 4;
     cells_in_buffer := 2;
     played_chunk_number := 0;
     _buffer := [];
     received_bitplanes_per_chunk := [0; 0];
     record_send_and_play := inherited_record_send_and_play;
     levels := 0;
     wavelet := EmptyString;
     overlap := 0;
     padding := EmptyString;
     precision_type := 16;
     extended_chunk_size := 0;
     precision_bits := 0;
     slices := [] |}.




(** [wt.array_to_coeffs] on a two-column cell: one two-column block
    per slice, the rows the slice selects. *)
Definition block_array_to_coeffs (a : chunk) (sl : list (Z * Z)) (format : string)
  : result (list (list (float * float))) :=
  Ok (map (fun s =>
             map (fun r => (of_Z (fst r), of_Z (snd r)))
                 (take (Z.to_nat (snd s - fst s)) (drop (Z.to_nat (fst s)) a)))
          sl).

(** [wt.waverec] along the last axis of two-column blocks: the first
    synthesis step doubles the two columns to four, so the second
    detail block, two columns wide, is refused ("coefficient shape
    mismatch"). *)
Definition checking_waverec (coeffs : list (list (float * float))) (wavelet mode : string)
  : result (list (float * float)) :=
  if (3 <=? length coeffs)%nat then Raise ValueError else Ok (concat coeffs).

(** A calibrated stereo session with 16 frames per chunk and the
    slice map of a four-level decomposition of 16 samples. *)
Definition ready_session : session :=
  {| number_of_channels := 2;
     frames_per_chunk := 16;
     cells_in_buffer := 2;
     played_chunk_number := 1;
     _buffer := [repeat (0, 0) 16; repeat (0, 0) 16];
     received_bitplanes_per_chunk := [5; 9];
     record_send_and_play := stereo_record_send_and_play;
     levels := 4;
     wavelet := "bior3.5";
     overlap := 4;
     padding := "periodization";
     precision_type := 32;
     extended_chunk_size := 20;
     precision_bits := 17;
     slices := [(0, 1); (1, 2); (2, 4); (4, 8); (8, 16)] |}.


End Doubles.

(** ** test/transforms/rfft2.py *)

Module Rfft2.

(** Lines 36-38: the zero-based channel mapping.  [None] is the exit
    through [parser.error]. *)
Definition channel_mapping (channels : list Z) : option (list Z) :=
  if existsb (fun c => c <? 1) channels then None
  else Some (map (fun c => c - 1) channels).

Section UpdatePlot.

(** The spectra are only moved around: their element type is a
    parameter, and so is the content of an array that [np.empty]
    returns. *)
Variable F : Type.
Variable np_empty : nat -> list F.

(** [a[0::2] = v], when [v] has one element for each even position. *)
Fixpoint assign_even (v a : list F) : list F :=
  match a, v with
  | x :: y :: a', z :: v' => z :: y :: assign_even v' a'
  | [x], z :: _ => [z]
  | _, _ => a
  end.

(** [a[start::2] = v]: [v] has one element for each position, or a
    single element that is broadcast; NumPy raises ValueError
    otherwise. *)
Definition assign_stride (start : nat) (v a : list F) : result (list F) :=
  let count := Nat.div2 (S (length a - start)) in
  if Nat.eqb (length v) count
  then Ok (take start a ++ assign_even v (drop start a))
  else match v with
       | [x] => Ok (take start a ++ assign_even (repeat x count) (drop start a))
       | _ => Raise ValueError
       end.

(** [a.reshape((rows, n))] of a flat array of [rows * n] values. *)
Fixpoint reshape_rows (rows n : nat) (a : list F) : list (list F) :=
  match rows with
  | O => []
  | S r => take n a :: reshape_rows r n (drop n a)
  end.

(** Lines 85-94, for one block [data] taken from the queue: the two
    rows of [data] are the components of its pairs, and [n] is
    [len(args.channels)]. *)
Definition replot (n : nat) (data : list (F * F)) : result (list (list F)) :=
  (let shift := length data in
   let plotdata := np_empty (shift * n) in
   let! plotdata := assign_stride 0 (map fst data) plotdata in
   let! plotdata := assign_stride 1 (map snd data) plotdata in
   Ok (reshape_rows shift n plotdata))%result.

(** Lines 80-94: the queue is emptied, the last block stays. *)
Fixpoint drain (n : nat) (queue : list (list (F * F))) (plotdata : list (list F))
  : result (list (list F)) :=
  match queue with
  | [] => Ok plotdata
  | data :: queue' =>
      (let! plotdata := replot n data in drain n queue' plotdata)%result
  end.

(** [plotdata[:, column]] *)
Fixpoint column_of (column : nat) (plotdata : list (list F)) : result (list F) :=
  match plotdata with
  | [] => Ok []
  | row :: rows =>
      match row !! column with
      | Some x => (let! rest := column_of column rows in Ok (x :: rest))%result
      | None => Raise IndexError
      end
  end.

Fixpoint ydata_of (columns : list nat) (plotdata : list (list F))
  : result (list (list F)) :=
  match columns with
  | [] => Ok []
  | c :: cs =>
      (let! y := column_of c plotdata in
       let! ys := ydata_of cs plotdata in
       Ok (y :: ys))%result
  end.

(** [update_plot] (lines 72-97), with one line per channel: the new
    value of the global [plotdata] and the data set on each line. *)
Definition update_plot (n : nat) (queue : list (list (F * F))) (plotdata : list (list F))
  : result (list (list F) * list (list F)) :=
  (let! plotdata := drain n queue plotdata in
   let! ydata := ydata_of (seq 0 n) plotdata in
   Ok (plotdata, ydata))%result.

End UpdatePlot.

(** A stand-in for [np.empty], used to run the model. *)
Definition zeros (k : nat) : list Z := repeat 0 k.

End Rfft2.

(** ** Predicates used in the statements *)


(** Sign in bit 15, magnitude in bits 0 to 14. *)
Definition sign_magnitude_word (x p : Z) : Prop :=
  Z.testbit p 15 = (x <? 0) /\ Z.land p 32767 = Z.abs x.

(** Both samples of a row fit the 15-bit magnitude field. *)
Definition fits_magnitude_field (r : Z * Z) : Prop :=
  Z.abs (fst r) <= 32767 /\ Z.abs (snd r) <= 32767.

(** Both samples of a row are 16-bit samples whose magnitude fits
    [precision_bits] bits. *)
Definition fits_width (precision_bits : Z) (r : Z * Z) : Prop :=
  in_range 16 (fst r) /\ in_range 16 (snd r) /\
  Z.abs (fst r) < 2 ^ precision_bits /\ Z.abs (snd r) < 2 ^ precision_bits.

(** Both samples of a row are [w]-bit values. *)
Definition sample_in_range (w : Z) (r : Z * Z) : Prop :=
  in_range w (fst r) /\ in_range w (snd r).

(** ** Facts about fixed-width arithmetic *)

Section FixedWidthFacts.

Variable w : Z.
Hypothesis w_pos : 0 < w.

Lemma pow2_width : 2 ^ w = 2 * 2 ^ (w - 1).
Proof using w_pos.
  replace w with (Z.succ (w - 1)) at 1 by lia.
  rewrite Z.pow_succ_r by lia. reflexivity.
Qed.

Lemma half_width_pos : 0 < 2 ^ (w - 1).
Proof using w_pos. apply Z.pow_pos_nonneg; lia. Qed.

Lemma wrap_in_range (z : Z) : in_range w (wrap w z).
Proof using w_pos.
  unfold in_range, wrap.
  pose proof half_width_pos as Hh. pose proof pow2_width as Hp.
  pose proof (Z.mod_pos_bound (z + 2 ^ (w - 1)) (2 ^ w)) as Hm. lia.
Qed.

Lemma wrap_small (z : Z) : in_range w z -> wrap w z = z.
Proof using w_pos.
  unfold in_range, wrap. intros Hz.
  pose proof pow2_width as Hp.
  rewrite Z.mod_small by lia. lia.
Qed.

(** [wrap] only forgets multiples of [2 ^ w]. *)
Lemma wrap_congr (a b : Z) :
  a mod 2 ^ w = b mod 2 ^ w -> wrap w a = wrap w b.
Proof using w_pos.
  unfold wrap. intros Hab.
  rewrite (Z.add_mod a), (Z.add_mod b), Hab by (pose proof half_width_pos; pose proof pow2_width; lia).
  reflexivity.
Qed.

Lemma wrap_mod (z : Z) : wrap w z mod 2 ^ w = z mod 2 ^ w.
Proof using w_pos.
  unfold wrap.
  pose proof half_width_pos as Hh. pose proof pow2_width as Hp.
  assert (Hne : 2 ^ w <> 0) by lia.
  rewrite <- (Zminus_mod_idemp_l ((z + 2 ^ (w - 1)) mod 2 ^ w)).
  rewrite Z.mod_mod by exact Hne.
  rewrite Zminus_mod_idemp_l. f_equal. lia.
Qed.

Lemma wrap_add_l (a b : Z) : wrap w (wrap w a + b) = wrap w (a + b).
Proof using w_pos.
  apply wrap_congr.
  rewrite <- Zplus_mod_idemp_l, wrap_mod, Zplus_mod_idemp_l. reflexivity.
Qed.

Lemma wrap_add_r (a b : Z) : wrap w (a + wrap w b) = wrap w (a + b).
Proof using w_pos.
  rewrite (Z.add_comm a), wrap_add_l. f_equal. lia.
Qed.

(** Subtracting and adding back the same value in the element type. *)
Lemma wrap_sub_add (a b : Z) :
  in_range w a -> wrap w (wrap w (a - b) + b) = a.
Proof using w_pos.
  intros Ha. rewrite wrap_add_l.
  replace (a - b + b) with a by lia. apply wrap_small, Ha.
Qed.

End FixedWidthFacts.

Lemma int16_small (z : Z) : -32768 <= z < 32768 -> int16 z = z.
Proof. intros Hz. apply wrap_small; [lia | exact Hz]. Qed.

Lemma int16_unfold (z : Z) : int16 z = (z + 32768) mod 65536 - 32768.
Proof. reflexivity. Qed.

(** ** Facts about the packer *)

Section PackerFacts.
Import Packer.

(** Bit 15 of a sign-extended 16-bit sample is its sign. *)
Lemma testbit15_sign (x : Z) :
  -32768 <= x < 32768 -> Z.testbit x 15 = (x <? 0).
Proof.
  intros Hx. rewrite Z.testbit_eqb by lia.
  change (2 ^ 15) with 32768.
  destruct (Z.ltb_spec x 0) as [Hneg | Hpos].
  - replace (x / 32768) with (-1) by (Z.div_mod_to_equations; lia).
    reflexivity.
  - rewrite Z.div_small by lia. reflexivity.
Qed.

Lemma land_bit15 (x : Z) :
  Z.land x 32768 = if Z.testbit x 15 then 32768 else 0.
Proof.
  apply Z.bits_inj'. intros n Hn.
  rewrite Z.land_spec. change 32768 with (2 ^ 15).
  rewrite Z.pow2_bits_eqb by lia.
  destruct (Z.eqb_spec 15 n) as [<- | Hne].
  - rewrite andb_true_r. destruct (Z.testbit x 15) eqn:Hb.
    + rewrite Z.pow2_bits_true by lia. reflexivity.
    + rewrite Z.bits_0. reflexivity.
  - rewrite andb_false_r. destruct (Z.testbit x 15).
    + rewrite Z.pow2_bits_false by lia. reflexivity.
    + rewrite Z.bits_0. reflexivity.
Qed.

Lemma pack_signs_sign (x : Z) :
  -32768 <= x < 32768 -> pack_signs x = if x <? 0 then 32768 else 0.
Proof.
  intros Hx. unfold pack_signs. rewrite land_bit15, testbit15_sign by exact Hx.
  reflexivity.
Qed.

Lemma pack_magnitudes_abs (x : Z) :
  -32767 <= x <= 32767 -> pack_magnitudes x = Z.abs x.
Proof. intros Hx. unfold pack_magnitudes. apply int16_small. lia. Qed.

(** The packed word, in closed form. *)
Lemma pack_closed_form (x : Z) :
  -32767 <= x <= 32767 ->
  pack x = if x <? 0 then 32768 + Z.abs x else x.
Proof.
  intros Hx. unfold pack.
  rewrite pack_signs_sign, pack_magnitudes_abs by lia.
  destruct (Z.ltb_spec x 0) as [Hneg | Hpos].
  - pose proof (Z.add_lor_land 32768 (Z.abs x)) as Hadd.
    assert (Hdisj : Z.land 32768 (Z.abs x) = 0).
    { rewrite Z.land_comm, land_bit15, testbit15_sign by lia.
      destruct (Z.ltb_spec (Z.abs x) 0); [lia | reflexivity]. }
    lia.
  - rewrite Z.lor_0_l. lia.
Qed.

Lemma buffer_cell_pack (x : Z) :
  -32767 <= x <= 32767 ->
  buffer_cell (pack x) = if x <? 0 then Z.abs x - 32768 else x.
Proof.
  intros Hx. unfold buffer_cell. rewrite pack_closed_form by exact Hx.
  rewrite int16_unfold.
  destruct (Z.ltb_spec x 0); Z.div_mod_to_equations; lia.
Qed.

Lemma unpack_signs_div (c : Z) : unpack_signs c = c / 32768.
Proof. unfold unpack_signs. rewrite Z.shiftr_div_pow2 by lia. reflexivity. Qed.

Lemma unpack_magnitudes_mod (c : Z) : unpack_magnitudes c = c mod 32768.
Proof.
  unfold unpack_magnitudes. change 32767 with (Z.ones 15).
  rewrite Z.land_ones by lia. reflexivity.
Qed.

(** What the unpacker reads from the cell of a packed sample. *)
Lemma unpack_signs_cell (x : Z) :
  -32767 <= x <= 32767 ->
  unpack_signs (buffer_cell (pack x)) = if x <? 0 then -1 else 0.
Proof.
  intros Hx. rewrite unpack_signs_div, buffer_cell_pack by exact Hx.
  destruct (Z.ltb_spec x 0); Z.div_mod_to_equations; lia.
Qed.

Lemma unpack_magnitudes_cell (x : Z) :
  -32767 <= x <= 32767 ->
  unpack_magnitudes (buffer_cell (pack x)) = Z.abs x.
Proof.
  intros Hx. rewrite unpack_magnitudes_mod, buffer_cell_pack by exact Hx.
  destruct (Z.ltb_spec x 0); Z.div_mod_to_equations; lia.
Qed.

Lemma recombine_plus (m : Z) : 0 <= m <= 32767 -> recombine m 0 = m.
Proof.
  intros Hm. unfold recombine.
  rewrite Z.mul_0_r. change (int16 0 * 2) with 0. change (int16 0) with 0.
  rewrite Z.add_0_r. apply int16_small. lia.
Qed.

Lemma recombine_minus (m : Z) : 0 <= m <= 32767 -> recombine m (-1) = - m.
Proof.
  intros Hm. unfold recombine.
  rewrite (int16_small (m * -1)) by lia.
  unfold int16. rewrite wrap_add_r by lia.
  replace (m + m * -1 * 2) with (- m) by lia.
  apply int16_small. lia.
Qed.

Lemma unpack_cell_pack (x : Z) :
  -32767 <= x <= 32767 -> unpack (buffer_cell (pack x)) = x.
Proof.
  intros Hx. unfold unpack.
  rewrite unpack_signs_cell, unpack_magnitudes_cell by exact Hx.
  destruct (Z.ltb_spec x 0).
  - rewrite recombine_minus by lia. lia.
  - rewrite recombine_plus by lia. lia.
Qed.

End PackerFacts.

(** ** The packed word and its inverse *)

Section PackerTheorems.
Import Packer.

Lemma pack_sign_magnitude (x : Z) :
  -32767 <= x <= 32767 -> sign_magnitude_word x (pack x).
Proof.
  intros Hx. unfold sign_magnitude_word.
  rewrite pack_closed_form by exact Hx.
  change 32767 with (Z.ones 15). rewrite Z.land_ones by lia.
  rewrite Z.testbit_eqb by lia. change (2 ^ 15) with 32768.
  destruct (Z.ltb_spec x 0).
  - replace ((32768 + Z.abs x) / 32768) with 1 by (Z.div_mod_to_equations; lia).
    split; [reflexivity | Z.div_mod_to_equations; lia].
  - rewrite Z.div_small by lia.
    split; [reflexivity | Z.div_mod_to_equations; lia].
Qed.

(** C10.  For every sample [x] with [-32767 <= x <= 32767] the packed
    word [(x & 0x8000) | abs(x)] lies in [0, 65535] and has bit 15
    set exactly when [x] is negative. *)
Theorem pack_word_range (x : Z) :
  -32767 <= x <= 32767 ->
  0 <= pack x <= 65535 /\ (Z.testbit (pack x) 15 = true <-> x < 0).
Proof.
  intros Hx.
  destruct (pack_sign_magnitude x Hx) as [Hbit _].
  rewrite Hbit, Z.ltb_lt. split; [| reflexivity].
  rewrite pack_closed_form by exact Hx.
  destruct (Z.ltb_spec x 0); lia.
Qed.

Lemma pack_word_range_witness :
  0 <= pack (-1234) <= 65535 /\ (Z.testbit (pack (-1234)) 15 = true <-> -1234 < 0).
Proof. apply (pack_word_range (-1234)). lia. Defined.

(** C1, as amended.  For every chunk whose samples have a magnitude
    of at most 32767 (the 15-bit magnitude field that the masks
    0x8000 and 0x7FFF fix, whatever the calibrated count), every
    packed word carries the sign in bit 15 and the magnitude in the
    bits below, and unpacking the packed chunk, read back from the
    16-bit buffer cells, returns the chunk. *)
Theorem pack_unpack_round_trip (A : chunk) :
  Forall fits_magnitude_field A ->
  unpack_chunk (buffer_chunk (pack_chunk A)) = A /\
  Forall (fun r => sign_magnitude_word (fst r) (pack (fst r)) /\
                   sign_magnitude_word (snd r) (pack (snd r))) A.
Proof.
  intros HA. unfold unpack_chunk, buffer_chunk, pack_chunk.
  induction HA as [| [a b] A [Ha Hb] HA [IHeq IHall]]; [split; constructor |].
  cbn [fst snd] in Ha, Hb. split.
  - cbn [map fst snd]. rewrite IHeq.
    rewrite !unpack_cell_pack by lia. reflexivity.
  - constructor; [| exact IHall].
    cbn [fst snd]. split; apply pack_sign_magnitude; lia.
Qed.

Lemma pack_unpack_round_trip_witness :
  unpack_chunk (buffer_chunk (pack_chunk [(-32767, 32767); (0, -1)]))
    = [(-32767, 32767); (0, -1)] /\
  Forall (fun r => sign_magnitude_word (fst r) (pack (fst r)) /\
                   sign_magnitude_word (snd r) (pack (snd r)))
         [(-32767, 32767); (0, -1)].
Proof.
  apply (pack_unpack_round_trip [(-32767, 32767); (0, -1)]).
  repeat constructor; simpl; lia.
Defined.

Lemma pack_unpack_most_negative :
  unpack_chunk (buffer_chunk (pack_chunk [(-32768, 0)])) = [(0, 0)].
Proof. vm_compute. reflexivity. Qed.

(** The claim C1 as stated, with the calibrated bitplane count as
    the width: it fails for the sample -32768, whose magnitude fits
    16 bits. *)
Lemma pack_unpack_calibrated_width_counterexample :
  ~ (forall (precision_bits : Z) (A : chunk),
       Forall (fits_width precision_bits) A ->
       unpack_chunk (buffer_chunk (pack_chunk A)) = A).
Proof.
  intros Hclaim.
  specialize (Hclaim 16 [(-32768, 0)]).
  rewrite pack_unpack_most_negative in Hclaim.
  assert (Hfit : Forall (fits_width 16) [(-32768, 0)]).
  { repeat constructor; simpl; lia. }
  specialize (Hclaim Hfit). discriminate Hclaim.
Qed.

(** The same sample defeats every width of 16 bits or more. *)
Lemma pack_unpack_wide_widths (precision_bits : Z) :
  16 <= precision_bits ->
  Forall (fits_width precision_bits) [(-32768, 0)] /\
  unpack_chunk (buffer_chunk (pack_chunk [(-32768, 0)])) <> [(-32768, 0)].
Proof.
  intros Hw. split.
  - assert (Hpow : 2 ^ 16 <= 2 ^ precision_bits)
      by (apply Z.pow_le_mono_r; lia).
    change (2 ^ 16) with 65536 in Hpow.
    repeat constructor; simpl; lia.
  - rewrite pack_unpack_most_negative. discriminate.
Qed.

(** C2, as amended.  For the cell of every packed sample, the sign
    value [cell >> 15] is 0 for a non-negative sample and -1 for a
    negative one, the magnitude [cell & 0x7FFF] is the absolute
    value, and [m + m*s*2] is [m] when [s = 0] and [- m] when
    [s = -1]. *)
Theorem unpack_split_recombine (x : Z) :
  -32767 <= x <= 32767 ->
  let c := buffer_cell (pack x) in
  let s := unpack_signs c in
  let m := unpack_magnitudes c in
  (s = 0 \/ s = -1) /\ (s = -1 <-> x < 0) /\ m = Z.abs x /\
  (s = 0 -> recombine m s = m) /\
  (s = -1 -> recombine m s = - m) /\
  unpack c = x.
Proof.
  intros Hx c s m. subst c s m.
  rewrite unpack_signs_cell, unpack_magnitudes_cell by exact Hx.
  repeat split.
  - destruct (Z.ltb_spec x 0); [right | left]; reflexivity.
  - destruct (Z.ltb_spec x 0); lia.
  - destruct (Z.ltb_spec x 0); lia.
  - intros ->. apply recombine_plus. lia.
  - intros ->. apply recombine_minus. lia.
  - apply unpack_cell_pack, Hx.
Qed.

Lemma unpack_split_recombine_witness :
  let c := buffer_cell (pack (-7)) in
  let s := unpack_signs c in
  let m := unpack_magnitudes c in
  (s = 0 \/ s = -1) /\ (s = -1 <-> -7 < 0) /\ m = Z.abs (-7) /\
  (s = 0 -> recombine m s = m) /\
  (s = -1 -> recombine m s = - m) /\
  unpack c = -7.
Proof. apply (unpack_split_recombine (-7)). lia. Defined.

(** The claim C2 as stated: with the sign value 1 the recombination
    gives three times the magnitude. *)
Lemma recombine_sign_one_counterexample :
  ~ (forall m s : Z,
       0 <= m <= 32767 ->
       (s = 0 -> recombine m s = m) /\ (s = 1 -> recombine m s = - m)).
Proof.
  intros Hclaim.
  destruct (Hclaim 1 1 ltac:(lia)) as [_ Hneg].
  specialize (Hneg eq_refl). vm_compute in Hneg. discriminate Hneg.
Qed.

End PackerTheorems.

(** ** Binaural decorrelation *)

Section DecorrelationTheorems.

Lemma set_col_col (c : channel) (r : Z * Z) : set_col c (col c r) r = r.
Proof. destruct c, r; reflexivity. Qed.

Lemma col_set_col_same (c : channel) (v : Z) (r : Z * Z) :
  col c (set_col c v r) = v.
Proof. destruct c; reflexivity. Qed.

Lemma col_set_col_other (c d : channel) (v : Z) (r : Z * Z) :
  c <> d -> col d (set_col c v r) = col d r.
Proof. destruct c, d; intros Hne; try reflexivity; contradiction. Qed.

Lemma set_col_twice (c : channel) (u v : Z) (r : Z * Z) :
  set_col c u (set_col c v r) = set_col c u r.
Proof. destruct c; reflexivity. Qed.

(** Adding the reference column back undoes the subtraction, row by
    row, in any width. *)
Lemma iadd_isub_col (w : Z) (dst src : channel) (a : chunk) :
  0 < w -> dst <> src ->
  Forall (sample_in_range w) a ->
  iadd_col w dst src (isub_col w dst src a) = a.
Proof.
  intros Hw Hne Ha. unfold iadd_col, isub_col.
  induction Ha as [| r a [Hr0 Hr1] _ IH]; [reflexivity |].
  cbn [map]. rewrite IH. f_equal.
  rewrite col_set_col_same, col_set_col_other by exact Hne.
  rewrite set_col_twice, wrap_sub_add.
  - apply set_col_col.
  - exact Hw.
  - destruct dst; assumption.
Qed.

(** C4.  For every stereo chunk of [w]-bit samples, adding the
    reference channel back into the residue channel restores the
    chunk exactly, for [channel0 -= channel1] (plain mode) and for
    [channel1 -= channel0] (transform mode). *)
Theorem decorrelation_round_trip (w : Z) (C : chunk) :
  0 < w ->
  Forall (sample_in_range w) C ->
  iadd_col w Ch0 Ch1 (isub_col w Ch0 Ch1 C) = C /\
  iadd_col w Ch1 Ch0 (isub_col w Ch1 Ch0 C) = C.
Proof.
  intros Hw HC. split; apply iadd_isub_col; try assumption; discriminate.
Qed.

Lemma decorrelation_round_trip_witness :
  iadd_col 16 Ch0 Ch1 (isub_col 16 Ch0 Ch1 [(-32768, 32767); (12, -7)])
    = [(-32768, 32767); (12, -7)] /\
  iadd_col 16 Ch1 Ch0 (isub_col 16 Ch1 Ch0 [(-32768, 32767); (12, -7)])
    = [(-32768, 32767); (12, -7)].
Proof.
  apply (decorrelation_round_trip 16 [(-32768, 32767); (12, -7)]).
  - lia.
  - repeat constructor; simpl; lia.
Defined.

End DecorrelationTheorems.

(** ** Running fallible code *)

Lemma rbind_ok {A B : Type} (r : result A) (k : A -> result B) (b : B) :
  rbind r k = Ok b -> exists a, r = Ok a /\ k a = Ok b.
Proof. destruct r as [a | e]; cbn; [eauto | discriminate]. Qed.

Lemma rbind_raise {A B : Type} (r : result A) (k : A -> result B) (e : exn) :
  r = Raise e -> rbind r k = Raise e.
Proof. intros ->. reflexivity. Qed.

Lemma py_index_lt (len : nat) (i : Z) (n : nat) :
  py_index len i = Ok n -> (n < len)%nat.
Proof.
  unfold py_index. intros H.
  destruct ((0 <=? i) && (i <? Z.of_nat len)) eqn:Hpos.
  - apply andb_true_iff in Hpos as [H0 H1].
    apply Z.leb_le in H0. apply Z.ltb_lt in H1.
    injection H as <-. lia.
  - destruct ((- Z.of_nat len <=? i) && (i <? 0)) eqn:Hneg; [| discriminate].
    apply andb_true_iff in Hneg as [H0 H1].
    apply Z.leb_le in H0. apply Z.ltb_lt in H1.
    injection H as <-. lia.
Qed.

(** Reading back the item just assigned. *)
Lemma py_getitem_setitem {A : Type} (l l' : list A) (i : Z) (v : A) :
  py_setitem l i v = Ok l' -> py_getitem l' i = Ok v.
Proof.
  unfold py_setitem, py_getitem. intros H.
  apply rbind_ok in H as (n & Hn & H). injection H as <-.
  rewrite length_insert, Hn. cbn.
  rewrite list_lookup_insert_eq by (eapply py_index_lt; eassumption).
  reflexivity.
Qed.

(** ** Handler selection in [Intercom_binaural.init] *)

Section HandlerSelection.

Variable Args : Type.
Variable Intercom_bitplanes_init : Args -> session -> result session.

Lemma init_not_stereo (args : Args) (self self0 : session) :
  Intercom_bitplanes_init args self = Ok self0 ->
  number_of_channels self0 <> 2 ->
  Binaural.init Args Intercom_bitplanes_init args self = Ok self0.
Proof using Type.
  intros Hparent Hch. unfold Binaural.init. rewrite Hparent. cbn.
  destruct (Z.eqb_spec (number_of_channels self0) 2); [contradiction | reflexivity].
Qed.

Lemma init_stereo (args : Args) (self self0 : session) :
  Intercom_bitplanes_init args self = Ok self0 ->
  number_of_channels self0 = 2 ->
  Binaural.init Args Intercom_bitplanes_init args self
    = Ok (set_record_send_and_play stereo_record_send_and_play self0).
Proof using Type.
  intros Hparent Hch. unfold Binaural.init. rewrite Hparent. cbn.
  rewrite Hch. reflexivity.
Qed.

(** C9.  In a session with exactly one channel, [init] leaves the
    session as the parent's [init] made it: the decorrelating stereo
    handler is not installed, so no chunk passes through the
    decorrelation; the handler is rebound only when the session has
    two channels. *)
Theorem mono_session_bypasses_decorrelation (args : Args) (self self0 : session) :
  Intercom_bitplanes_init args self = Ok self0 ->
  (number_of_channels self0 = 1 ->
   Binaural.init Args Intercom_bitplanes_init args self = Ok self0) /\
  (forall self',
     Binaural.init Args Intercom_bitplanes_init args self = Ok self' ->
     record_send_and_play self' <> record_send_and_play self0 ->
     number_of_channels self0 = 2).
Proof using Type.
  intros Hparent. split.
  - intros Hmono. apply init_not_stereo; [exact Hparent | lia].
  - intros self' Hinit Hrebound.
    destruct (Z.eq_dec (number_of_channels self0) 2) as [Htwo | Hnot]; [exact Htwo |].
    rewrite (init_not_stereo args self self0 Hparent Hnot) in Hinit.
    injection Hinit as <-. contradiction.
Qed.

End HandlerSelection.

Lemma mono_session_bypasses_decorrelation_witness :
  (number_of_channels Doubles.mono_session = 1 ->
   Binaural.init unit Doubles.parent_init tt Doubles.mono_session
     = Ok Doubles.mono_session) /\
  (forall self',
     Binaural.init unit Doubles.parent_init tt Doubles.mono_session = Ok self' ->
     record_send_and_play self' <> record_send_and_play Doubles.mono_session ->
     number_of_channels Doubles.mono_session = 2).
Proof.
  apply (mono_session_bypasses_decorrelation unit Doubles.parent_init tt
           Doubles.mono_session Doubles.mono_session).
  reflexivity.
Defined.

(** ** Calibration *)

Section Calibration.

Variable Args : Type.
Variable Intercom_empty_init : Args -> session -> result session.
Variable run : session -> result session.
Variable np_random_randint : Z -> Z -> Z -> result (list Z).
Variable wt_wavedec : list Z -> string -> Z -> string -> result (list (list float)).
Variable libm_log : float -> float.

Lemma math_log_domain_error (x : float) :
  PrimFloat.leb x 0%float = true -> DWT.math_log libm_log x = Raise ValueError.
Proof using Type. intros Hx. unfold DWT.math_log. rewrite Hx. reflexivity. Qed.

Lemma bitplanes_of_range_domain_error (range : float) :
  PrimFloat.leb range 0%float = true ->
  DWT.bitplanes_of_range libm_log range = Raise ValueError.
Proof using Type.
  intros Hr. unfold DWT.bitplanes_of_range.
  apply rbind_raise, math_log_domain_error, Hr.
Qed.

(** C5.  When the range [max - min] of the probe's coefficients is
    not positive, [get_coeffs_bitplanes] raises ValueError instead
    of returning a count, [init] raises it too, and the script stops
    before [run]. *)
Theorem calibration_fails_on_nonpositive_range
    (args : Args) (self self1 self2 : session) (range : float) :
  Intercom_empty_init args self = Ok self1 ->
  DWT.probe_range np_random_randint wt_wavedec (DWT.set_dwt_constants self1)
    = Ok (range, self2) ->
  PrimFloat.leb range 0%float = true ->
  DWT.get_coeffs_bitplanes np_random_randint wt_wavedec libm_log
    (DWT.set_dwt_constants self1) = Raise ValueError /\
  DWT.init Args Intercom_empty_init np_random_randint wt_wavedec libm_log args self
    = Raise ValueError /\
  DWT.main Args Intercom_empty_init run np_random_randint wt_wavedec libm_log args self
    = Raise ValueError.
Proof using Type.
  intros Hparent Hprobe Hrange.
  assert (Hget : DWT.get_coeffs_bitplanes np_random_randint wt_wavedec libm_log
                   (DWT.set_dwt_constants self1) = Raise ValueError).
  { unfold DWT.get_coeffs_bitplanes. rewrite Hprobe. cbn [rbind fst].
    apply rbind_raise, bitplanes_of_range_domain_error, Hrange. }
  assert (Hinit : DWT.init Args Intercom_empty_init np_random_randint wt_wavedec
                    libm_log args self = Raise ValueError).
  { unfold DWT.init. rewrite Hparent. cbn [rbind]. rewrite Hget. reflexivity. }
  repeat split; [exact Hget | exact Hinit |].
  unfold DWT.main. rewrite Hinit. reflexivity.
Qed.

End Calibration.

Lemma calibration_fails_on_nonpositive_range_witness :
  DWT.get_coeffs_bitplanes Doubles.zero_probe Doubles.negating_wavedec Doubles.libm_log
    (DWT.set_dwt_constants Doubles.stereo_session) = Raise ValueError /\
  DWT.init unit Doubles.parent_init Doubles.zero_probe Doubles.negating_wavedec
    Doubles.libm_log tt Doubles.stereo_session = Raise ValueError /\
  DWT.main unit Doubles.parent_init Doubles.run Doubles.zero_probe
    Doubles.negating_wavedec Doubles.libm_log tt Doubles.stereo_session
    = Raise ValueError.
Proof.
  apply (calibration_fails_on_nonpositive_range unit Doubles.parent_init Doubles.run
           Doubles.zero_probe Doubles.negating_wavedec Doubles.libm_log tt
           Doubles.stereo_session Doubles.stereo_session
           (set_slices [(0, 1)] (DWT.set_dwt_constants Doubles.stereo_session))
           0%float).
  - reflexivity.
  - vm_compute. reflexivity.
  - vm_compute. reflexivity.
Defined.

(** ** The count that calibration stores *)

Section CalibrationCount.

Variable Args : Type.
Variable Intercom_empty_init : Args -> session -> result session.
Variable run : session -> result session.
Variable np_random_randint : Z -> Z -> Z -> result (list Z).
Variable wt_wavedec : list Z -> string -> Z -> string -> result (list (list float)).
Variable libm_log : float -> float.




End CalibrationCount.




(** ** Length of the coefficient array *)

Lemma half_up_double (n : nat) : (n <= 2 * DWT.half_up n)%nat.
Proof.
  unfold DWT.half_up.
  pose proof (Nat.div2_odd (S n)) as Hodd.
  destruct (Nat.odd (S n)); cbn [Nat.b2n] in Hodd; lia.
Qed.

Lemma half_up_even (k : nat) : DWT.half_up (2 * k) = k.
Proof.
  unfold DWT.half_up.
  pose proof (Nat.div2_odd (S (2 * k))) as Hodd.
  destruct (Nat.odd (S (2 * k))); cbn [Nat.b2n] in Hodd; lia.
Qed.

Lemma sum_list_app (l1 l2 : list nat) :
  sum_list (l1 ++ l2) = (sum_list l1 + sum_list l2)%nat.
Proof. induction l1 as [| x l1 IH]; cbn; [reflexivity | rewrite IH; lia]. Qed.

(** The subbands together are at least as long as the signal. *)
Lemma wavedec_lengths_sum (level n : nat) :
  (n <= sum_list (DWT.wavedec_lengths level n))%nat.
Proof.
  revert n. induction level as [| level IH]; intros n; cbn [DWT.wavedec_lengths].
  - cbn. lia.
  - rewrite sum_list_app.
    change (sum_list [DWT.half_up n]) with (DWT.half_up n + 0)%nat.
    pose proof (IH (DWT.half_up n)). pose proof (half_up_double n). lia.
Qed.

(** They are exactly as long when the length is a multiple of
    [2 ^ level]. *)
Lemma wavedec_lengths_sum_exact (level k : nat) :
  sum_list (DWT.wavedec_lengths level (2 ^ level * k)) = (2 ^ level * k)%nat.
Proof.
  revert k. induction level as [| level IH]; intros k; cbn [DWT.wavedec_lengths].
  - cbn. lia.
  - rewrite sum_list_app.
    replace (2 ^ S level * k)%nat with (2 * (2 ^ level * k))%nat
      by (rewrite Nat.pow_succ_r'; lia).
    rewrite half_up_even, IH.
    change (sum_list [(2 ^ level * k)%nat]) with (2 ^ level * k + 0)%nat. lia.
Qed.

Lemma wavedec_lengths_sum_divides (level n : nat) :
  sum_list (DWT.wavedec_lengths level n) = n -> Nat.divide (2 ^ level) n.
Proof.
  revert n. induction level as [| level IH]; intros n; cbn [DWT.wavedec_lengths].
  - intros _. apply Nat.divide_1_l.
  - rewrite sum_list_app.
    change (sum_list [DWT.half_up n]) with (DWT.half_up n + 0)%nat.
    intros Hsum.
    pose proof (wavedec_lengths_sum level (DWT.half_up n)) as Hge.
    pose proof (half_up_double n) as Hdouble.
    assert (Hhalf : sum_list (DWT.wavedec_lengths level (DWT.half_up n)) = DWT.half_up n)
      by lia.
    destruct (IH _ Hhalf) as [k Hk].
    exists k. rewrite Nat.pow_succ_r'. lia.
Qed.

Lemma wavedec_lengths_sum_iff (level n : nat) :
  sum_list (DWT.wavedec_lengths level n) = n <-> Nat.divide (2 ^ level) n.
Proof.
  split; [apply wavedec_lengths_sum_divides |].
  intros [k ->]. rewrite (Nat.mul_comm k). apply wavedec_lengths_sum_exact.
Qed.

Lemma length_concat_sum {A : Type} (ls : list (list A)) :
  length (concat ls) = sum_list (map length ls).
Proof.
  induction ls as [| l ls IH]; cbn; [reflexivity |].
  rewrite length_app, IH. reflexivity.
Qed.

Section CoefficientArrayLength.

Variable wt_wavedec : list Z -> string -> Z -> string -> result (list (list float)).

(** PyWavelets in periodization mode: a non-empty signal is
    decomposed, and every level halves the length, rounding up. *)
Hypothesis wavedec_periodization :
  forall (x : list Z) (wv : string) (level : Z),
    x <> [] ->
    exists coeffs,
      wt_wavedec x wv level "periodization" = Ok coeffs /\
      map length coeffs = DWT.wavedec_lengths (Z.to_nat level) (length x).

(** C7, as amended.  With the session constants (wavelet bior3.5,
    4 levels, periodization), the forward transform of a chunk of
    [N >= 1] samples returns a coefficient array of [N' >= N] values,
    and [N' = N] exactly when [N] is a multiple of 16: it is longer
    than the chunk only for the other lengths. *)
Theorem forward_transform_length (self : session) (chunk : list Z) :
  chunk <> [] ->
  exists arr,
    DWT.forward_transform wt_wavedec (DWT.set_dwt_constants self) chunk = Ok arr /\
    (length chunk <= length arr)%nat /\
    (length arr = length chunk <-> Nat.divide 16 (length chunk)) /\
    ((length chunk < length arr)%nat <-> ~ Nat.divide 16 (length chunk)).
Proof using wavedec_periodization.
  intros Hne.
  destruct (wavedec_periodization chunk "bior3.5" 4 Hne) as (coeffs & Hdec & Hlen).
  unfold DWT.forward_transform. cbn [DWT.set_dwt_constants wavelet levels padding].
  rewrite Hdec. cbn [rbind].
  assert (Hcoeffs : coeffs <> []).
  { intros ->. cbn in Hlen. discriminate Hlen. }
  unfold DWT.wt_coeffs_to_array.
  destruct coeffs as [| c cs]; [contradiction |].
  cbn [rbind fst]. eexists. split; [reflexivity |].
  rewrite length_concat_sum, Hlen.
  change (Z.to_nat 4) with 4%nat. change 16%nat with (2 ^ 4)%nat.
  pose proof (wavedec_lengths_sum 4 (length chunk)) as Hge.
  pose proof (wavedec_lengths_sum_iff 4 (length chunk)) as Hiff.
  split; [exact Hge |]. split; [exact Hiff |].
  split.
  - intros Hlt Hdiv. apply Hiff in Hdiv. lia.
  - intros Hndiv.
    destruct (Nat.eq_dec (sum_list (DWT.wavedec_lengths 4 (length chunk))) (length chunk))
      as [Heq | Hneq]; [| lia].
    exfalso. apply Hndiv, Hiff, Heq.
Qed.

(** A chunk whose length is a multiple of 16 gives exactly as many
    coefficients as samples. *)
Lemma forward_transform_length_exact (self : session) (chunk : list Z) (k : nat) :
  chunk <> [] ->
  length chunk = (16 * k)%nat ->
  exists arr,
    DWT.forward_transform wt_wavedec (DWT.set_dwt_constants self) chunk = Ok arr /\
    length arr = length chunk.
Proof using wavedec_periodization.
  intros Hne Hk.
  destruct (wavedec_periodization chunk "bior3.5" 4 Hne) as (coeffs & Hdec & Hlen).
  unfold DWT.forward_transform. cbn [DWT.set_dwt_constants wavelet levels padding].
  rewrite Hdec. cbn [rbind].
  unfold DWT.wt_coeffs_to_array.
  destruct coeffs as [| c cs]; [cbn in Hlen; discriminate Hlen |].
  cbn [rbind fst]. eexists. split; [reflexivity |].
  rewrite length_concat_sum, Hlen, Hk.
  change (Z.to_nat 4) with 4%nat. change 16%nat with (2 ^ 4)%nat.
  apply wavedec_lengths_sum_exact.
Qed.

End CoefficientArrayLength.

Lemma shaped_wavedec_periodization (x : list Z) (wv : string) (level : Z) :
  x <> [] ->
  exists coeffs,
    Doubles.shaped_wavedec x wv level "periodization" = Ok coeffs /\
    map length coeffs = DWT.wavedec_lengths (Z.to_nat level) (length x).
Proof.
  intros Hne. unfold Doubles.shaped_wavedec.
  destruct x as [| z x]; [contradiction |].
  eexists. split; [reflexivity |].
  rewrite map_map. generalize (DWT.wavedec_lengths (Z.to_nat level) (length (z :: x))).
  intros ls. induction ls as [| n ls IH]; cbn [map]; [reflexivity |].
  rewrite IH, repeat_length. reflexivity.
Qed.

Lemma forward_transform_length_witness :
  exists arr,
    DWT.forward_transform Doubles.shaped_wavedec
      (DWT.set_dwt_constants Doubles.stereo_session) [3; 1; 4; 1; 5] = Ok arr /\
    (length [3; 1; 4; 1; 5] <= length arr)%nat /\
    (length arr = length [3; 1; 4; 1; 5] <-> Nat.divide 16 (length [3; 1; 4; 1; 5])) /\
    ((length [3; 1; 4; 1; 5] < length arr)%nat
     <-> ~ Nat.divide 16 (length [3; 1; 4; 1; 5])).
Proof.
  apply (forward_transform_length Doubles.shaped_wavedec shaped_wavedec_periodization
           Doubles.stereo_session [3; 1; 4; 1; 5]).
  discriminate.
Defined.

(** The claim C7 as stated, with its "strictly larger": under the
    halving rule no chunk of a length that is a multiple of 16 (the
    lengths the handler accepts, 1024 among them) has a coefficient
    array longer than itself. *)
Lemma forward_transform_not_longer_counterexample :
  ~ (forall (wt_wavedec : list Z -> string -> Z -> string -> result (list (list float))),
       (forall (x : list Z) (wv : string) (level : Z),
           x <> [] ->
           exists coeffs,
             wt_wavedec x wv level "periodization"%string = Ok coeffs /\
             map length coeffs = DWT.wavedec_lengths (Z.to_nat level) (length x)) ->
       forall (self : session) (chunk : list Z) (arr : list float),
         chunk <> [] ->
         DWT.forward_transform wt_wavedec (DWT.set_dwt_constants self) chunk = Ok arr ->
         (length chunk < length arr)%nat).
Proof.
  intros Hclaim.
  specialize (Hclaim Doubles.shaped_wavedec shaped_wavedec_periodization
                Doubles.stereo_session (repeat 7 1024) (repeat 0%float 1024)).
  assert (Hne : repeat 7 1024 <> []) by discriminate.
  assert (Hrun : DWT.forward_transform Doubles.shaped_wavedec
                   (DWT.set_dwt_constants Doubles.stereo_session) (repeat 7 1024)
                 = Ok (repeat 0%float 1024)) by (vm_compute; reflexivity).
  specialize (Hclaim Hne Hrun). rewrite !repeat_length in Hclaim. lia.
Qed.

(** ** The stereo handler of [Intercom_DWT] *)

Section StereoHandler.

Variable send : chunk -> session -> result session.
Variable play : chunk -> session -> result (chunk * session).
Variable wt_wavedec : list Z -> string -> Z -> string -> result (list (list float)).
Variable wt_array_to_coeffs :
  chunk -> list (Z * Z) -> string -> result (list (list (float * float))).
Variable wt_waverec :
  list (list (float * float)) -> string -> string -> result (list (float * float)).
Variable astype_int16 : float -> Z.
Variable around_astype : Z -> float -> Z.

Local Abbreviation handler :=
  (DWT.record_send_and_play_stereo send play wt_wavedec wt_array_to_coeffs
     wt_waverec astype_int16 around_astype).

Local Abbreviation inverse :=
  (DWT.inverse_transform wt_array_to_coeffs wt_waverec around_astype).

(** A successful call, taken apart: what is sent, what the inverse
    transform is given, and what is left to do after [play]. *)
Lemma handler_run (indata outdata out : chunk) (self self' : session) :
  handler indata outdata self = Ok (out, self') ->
  exists coeffs transformed self1 i cell restored buffer self2 j counters,
    DWT.forward_transform wt_wavedec self (column Ch0 (isub_col 16 Ch1 Ch0 indata))
      = Ok coeffs /\
    assign_col Ch0 (map astype_int16 coeffs) (isub_col 16 Ch1 Ch0 indata)
      = Ok transformed /\
    send (Packer.pack_chunk transformed) self = Ok self1 /\
    py_mod (played_chunk_number self1) (cells_in_buffer self1) = Ok i /\
    py_getitem (_buffer self1) i = Ok cell /\
    play_path (inverse self1) cell = Ok restored /\
    py_setitem (_buffer self1) i restored = Ok buffer /\
    play outdata (set_buffer buffer self1) = Ok (out, self2) /\
    py_mod (played_chunk_number self2) (cells_in_buffer self2) = Ok j /\
    py_setitem (received_bitplanes_per_chunk self2) j 0 = Ok counters /\
    self' = set_received_bitplanes_per_chunk counters self2.
Proof using Type.
  unfold DWT.record_send_and_play_stereo. intros H.
  apply rbind_ok in H as (coeffs & Hfwd & H).
  apply rbind_ok in H as (transformed & Hassign & H).
  apply rbind_ok in H as (self1 & Hsend & H).
  apply rbind_ok in H as (i & Hi & H).
  apply rbind_ok in H as (cell & Hcell & H).
  apply rbind_ok in H as (buffer1 & Hset1 & H).
  apply rbind_ok in H as (cell1 & Hcell1 & H).
  apply rbind_ok in H as (buffer2 & Hset2 & H).
  apply rbind_ok in H as (cell2 & Hcell2 & H).
  apply rbind_ok in H as (restored & Hinv & H).
  apply rbind_ok in H as (buffer3 & Hset3 & H).
  apply rbind_ok in H as ([out' self2] & Hplay & H).
  apply rbind_ok in H as (j & Hj & H).
  apply rbind_ok in H as (counters & Hcnt & H).
  cbn [fst snd] in *. injection H as <- <-.
  cbn [_buffer set_buffer] in *.
  (* the cell read back at lines 123 and 124 is the one just stored *)
  rewrite (py_getitem_setitem _ _ _ _ Hset1) in Hcell1. injection Hcell1 as <-.
  rewrite (py_getitem_setitem _ _ _ _ Hset2) in Hcell2. injection Hcell2 as <-.
  exists coeffs, transformed, self1, i, cell, restored, buffer3, self2, j, counters.
  repeat split; try assumption.
  (* storing three times in the same slot leaves the last value *)
  revert Hset1 Hset2 Hset3. unfold py_setitem. intros Hset1 Hset2 Hset3.
  apply rbind_ok in Hset1 as (n & Hn & Hset1). injection Hset1 as <-.
  rewrite length_insert, Hn in Hset2. cbn [rbind] in Hset2. injection Hset2 as <-.
  rewrite !length_insert, Hn in Hset3. cbn [rbind] in Hset3. injection Hset3 as <-.
  rewrite Hn. cbn [rbind]. rewrite !list_insert_insert_eq. reflexivity.
Qed.

(** The chunk handed to [play] is the inverse transform of the whole
    cell, after channel 0 was added to channel 1. *)
Lemma play_path_inverse_after_recorrelation
    (indata outdata out : chunk) (self self' : session) :
  handler indata outdata self = Ok (out, self') ->
  exists self1 i cell restored buffer self2,
    py_getitem (_buffer self1) i = Ok cell /\
    inverse self1 (iadd_col 16 Ch1 Ch0 (Packer.unpack_chunk cell)) = Ok restored /\
    py_setitem (_buffer self1) i restored = Ok buffer /\
    play outdata (set_buffer buffer self1) = Ok (out, self2).
Proof using Type.
  intros H.
  destruct (handler_run _ _ _ _ _ H)
    as (coeffs & transformed & self1 & i & cell & restored & buffer & self2 & j
        & counters & _ & _ & _ & _ & Hcell & Hpath & Hset & Hplay & _).
  exists self1, i, cell, restored, buffer, self2. auto.
Qed.

(** On the send path the transform sees channel 0 only: channel 1 of
    the chunk handed to [send] is the packed difference. *)
Lemma send_path_keeps_residue (indata outdata out : chunk) (self self' : session) :
  handler indata outdata self = Ok (out, self') ->
  exists coeffs transformed self1,
    DWT.forward_transform wt_wavedec self (column Ch0 (isub_col 16 Ch1 Ch0 indata))
      = Ok coeffs /\
    assign_col Ch0 (map astype_int16 coeffs) (isub_col 16 Ch1 Ch0 indata)
      = Ok transformed /\
    send (Packer.pack_chunk transformed) self = Ok self1.
Proof using Type.
  intros H.
  destruct (handler_run _ _ _ _ _ H)
    as (coeffs & transformed & self1 & i & cell & restored & buffer & self2 & j
        & counters & Hfwd & Hassign & Hsend & _).
  exists coeffs, transformed, self1. auto.
Qed.

End StereoHandler.

(** C3.  With an exactly invertible transform and a transport that
    loops the sent chunk back, the handler does not play the captured
    chunk: it adds channel 0 to channel 1 before the inverse transform
    and passes both channels through it.  The order the specification
    words returns the chunk. *)
Theorem stereo_handler_play_order :
  (exists self',
     DWT.record_send_and_play_stereo Doubles.loopback_send Doubles.device_play
       Doubles.negating_wavedec Doubles.negating_array_to_coeffs
       Doubles.negating_waverec Doubles.astype_int16 Doubles.around_astype
       [(5, 7)] [(0, 0)] Doubles.stereo_session = Ok ([(5, 3)], self')) /\
  play_path
    (DWT.inverse_transform Doubles.negating_array_to_coeffs Doubles.negating_waverec
       Doubles.around_astype Doubles.stereo_session)
    (Packer.buffer_chunk (Packer.pack_chunk [(-5, 2)])) = Ok [(5, 3)] /\
  play_path_spec_order Doubles.negating_inverse0
    (Packer.buffer_chunk (Packer.pack_chunk [(-5, 2)])) = Ok [(5, 7)].
Proof.
  split; [| split].
  - eexists. vm_compute. reflexivity.
  - vm_compute. reflexivity.
  - vm_compute. reflexivity.
Qed.

(** ** The inverse transform on the two-column cell *)

Section TwoColumnCell.

Variable send : chunk -> session -> result session.
Variable wt_wavedec : list Z -> string -> Z -> string -> result (list (list float)).
Variable wt_array_to_coeffs :
  chunk -> list (Z * Z) -> string -> result (list (list (float * float))).
Variable wt_waverec :
  list (list (float * float)) -> string -> string -> result (list (float * float)).
Variable astype_int16 : float -> Z.
Variable around_astype : Z -> float -> Z.

(** PyWavelets on a two-column array: [array_to_coeffs] cuts one
    two-column block per slice, and [waverec], which works along the
    last axis, refuses three blocks or more: the first synthesis step
    doubles the two columns to four, which no longer fit the next
    detail block ("coefficient shape mismatch"). *)
Hypothesis array_to_coeffs_blocks :
  forall (a : chunk) (sl : list (Z * Z)) (format : string)
         (coeffs : list (list (float * float))),
    wt_array_to_coeffs a sl format = Ok coeffs -> length coeffs = length sl.
Hypothesis waverec_shape_mismatch :
  forall (coeffs : list (list (float * float))) (wv mode : string),
    (3 <= length coeffs)%nat -> wt_waverec coeffs wv mode = Raise ValueError.

Lemma inverse_transform_refuses_cell (self : session) (cell : chunk) :
  (3 <= length (slices self))%nat ->
  exists e,
    DWT.inverse_transform wt_array_to_coeffs wt_waverec around_astype self cell = Raise e.
Proof using array_to_coeffs_blocks waverec_shape_mismatch.
  intros Hslices. unfold DWT.inverse_transform.
  destruct (wt_array_to_coeffs cell (slices self) "wavedec") as [coeffs | e] eqn:Hblocks.
  - cbn [rbind]. apply array_to_coeffs_blocks in Hblocks.
    rewrite waverec_shape_mismatch by lia. exists ValueError. reflexivity.
  - exists e. reflexivity.
Qed.

(** C8.  In a session whose slice map has three subbands or more
    (five after calibration), no call of the handler returns, whatever
    [play] does: the call raises at line 124 at the latest, where the
    whole two-column cell is handed to the inverse transform, so
    [play] (line 125) and the reset of the counter (line 126) are
    never reached. *)
Theorem stereo_handler_never_resets (indata outdata : chunk) (self : session) :
  (forall sent self1, send sent self = Ok self1 -> (3 <= length (slices self1))%nat) ->
  exists e,
    forall play : chunk -> session -> result (chunk * session),
      DWT.record_send_and_play_stereo send play wt_wavedec wt_array_to_coeffs
        wt_waverec astype_int16 around_astype indata outdata self = Raise e.
Proof using array_to_coeffs_blocks waverec_shape_mismatch.
  intros Hslices. unfold DWT.record_send_and_play_stereo.
  destruct (DWT.forward_transform wt_wavedec self (column Ch0 (isub_col 16 Ch1 Ch0 indata)))
    as [coeffs | e] eqn:Hfwd; cbn [rbind]; [| exists e; reflexivity].
  destruct (assign_col Ch0 (map astype_int16 coeffs) (isub_col 16 Ch1 Ch0 indata))
    as [transformed | e] eqn:Hassign; cbn [rbind]; [| exists e; reflexivity].
  destruct (send (Packer.pack_chunk transformed) self) as [self1 | e] eqn:Hsend;
    cbn [rbind]; [| exists e; reflexivity].
  specialize (Hslices _ _ Hsend).
  destruct (py_mod (played_chunk_number self1) (cells_in_buffer self1)) as [i | e];
    cbn [rbind]; [| exists e; reflexivity].
  destruct (py_getitem (_buffer self1) i) as [cell | e];
    cbn [rbind]; [| exists e; reflexivity].
  destruct (py_setitem (_buffer self1) i (Packer.unpack_chunk cell)) as [buffer1 | e];
    cbn [rbind]; [| exists e; reflexivity].
  cbn [_buffer set_buffer].
  destruct (py_getitem buffer1 i) as [cell1 | e];
    cbn [rbind]; [| exists e; reflexivity].
  destruct (py_setitem buffer1 i (iadd_col 16 Ch1 Ch0 cell1)) as [buffer2 | e];
    cbn [rbind]; [| exists e; reflexivity].
  destruct (py_getitem buffer2 i) as [cell2 | e];
    cbn [rbind]; [| exists e; reflexivity].
  destruct (inverse_transform_refuses_cell
              (set_buffer buffer2 (set_buffer buffer1 self1)) cell2 Hslices) as [e He].
  rewrite He. exists e. reflexivity.
Qed.

End TwoColumnCell.

Lemma block_array_to_coeffs_blocks
    (a : chunk) (sl : list (Z * Z)) (format : string)
    (coeffs : list (list (float * float))) :
  Doubles.block_array_to_coeffs a sl format = Ok coeffs -> length coeffs = length sl.
Proof.
  unfold Doubles.block_array_to_coeffs. intros H. injection H as <-.
  apply length_map.
Qed.

Lemma checking_waverec_shape_mismatch
    (coeffs : list (list (float * float))) (wv mode : string) :
  (3 <= length coeffs)%nat -> Doubles.checking_waverec coeffs wv mode = Raise ValueError.
Proof.
  intros Hlen. unfold Doubles.checking_waverec.
  destruct (Nat.leb_spec 3 (length coeffs)); [reflexivity | lia].
Qed.

Lemma loopback_send_keeps_slices (sent : chunk) (self self1 : session) :
  Doubles.loopback_send sent self = Ok self1 -> slices self1 = slices self.
Proof.
  unfold Doubles.loopback_send. intros H.
  apply rbind_ok in H as (i & _ & H).
  apply rbind_ok in H as (buffer & _ & H).
  injection H as <-. reflexivity.
Qed.

Lemma stereo_handler_never_resets_witness :
  exists e,
    forall play : chunk -> session -> result (chunk * session),
      DWT.record_send_and_play_stereo Doubles.loopback_send play Doubles.shaped_wavedec
        Doubles.block_array_to_coeffs Doubles.checking_waverec Doubles.astype_int16
        Doubles.around_astype (repeat (3, 10) 16) (repeat (0, 0) 16) Doubles.ready_session
      = Raise e.
Proof.
  apply (stereo_handler_never_resets Doubles.loopback_send Doubles.shaped_wavedec
           Doubles.block_array_to_coeffs Doubles.checking_waverec Doubles.astype_int16
           Doubles.around_astype block_array_to_coeffs_blocks
           checking_waverec_shape_mismatch
           (repeat (3, 10) 16) (repeat (0, 0) 16) Doubles.ready_session).
  intros sent self1 Hsend.
  rewrite (loopback_send_keeps_slices _ _ _ Hsend). simpl. lia.
Defined.

(** With these stand-ins the call gets as far as line 124 and raises
    ValueError there. *)
Lemma stereo_handler_raises_at_inverse :
  forall play : chunk -> session -> result (chunk * session),
    DWT.record_send_and_play_stereo Doubles.loopback_send play Doubles.shaped_wavedec
      Doubles.block_array_to_coeffs Doubles.checking_waverec Doubles.astype_int16
      Doubles.around_astype (repeat (3, 10) 16) (repeat (0, 0) 16) Doubles.ready_session
    = Raise ValueError.
Proof. intros play. vm_compute. reflexivity. Qed.

(** ** Further properties of the packer and unpacker *)

Section PackerAllCells.
Import Packer.

(** The unpacker on any 16-bit cell, in closed form. *)
Lemma unpack_closed_form (c : Z) :
  -32768 <= c < 32768 ->
  unpack c = if c <? 0 then - (c + 32768) else c.
Proof.
  intros Hc. unfold unpack.
  rewrite unpack_signs_div, unpack_magnitudes_mod.
  destruct (Z.ltb_spec c 0) as [Hneg | Hpos].
  - replace (c / 32768) with (-1) by (Z.div_mod_to_equations; lia).
    replace (c mod 32768) with (c + 32768) by (Z.div_mod_to_equations; lia).
    apply recombine_minus. lia.
  - rewrite Z.div_small, Z.mod_small by lia.
    apply recombine_plus. lia.
Qed.

(** Whatever a 16-bit cell holds, the unpacked value is a
    sign-magnitude value: it lies in [-32767, 32767], its magnitude is
    the low 15 bits of the cell, and it is negative only if the cell
    is. *)
Theorem unpack_any_cell (c : Z) :
  -32768 <= c < 32768 ->
  -32767 <= unpack c <= 32767 /\
  Z.abs (unpack c) = Z.land c 32767 /\
  (unpack c < 0 -> c < 0).
Proof.
  intros Hc. rewrite (unpack_closed_form c Hc).
  fold (unpack_magnitudes c). rewrite unpack_magnitudes_mod.
  destruct (Z.ltb_spec c 0); repeat split; try lia;
    Z.div_mod_to_equations; lia.
Qed.

Lemma unpack_any_cell_witness :
  -32767 <= unpack (-32768) <= 32767 /\
  Z.abs (unpack (-32768)) = Z.land (-32768) 32767 /\
  (unpack (-32768) < 0 -> -32768 < 0).
Proof. apply (unpack_any_cell (-32768)). lia. Defined.

(** For a 16-bit sample the round trip through the packed cell fails
    at -32768 only, where it gives 0. *)
Theorem pack_unpack_all_samples (x : Z) :
  -32768 <= x < 32768 ->
  unpack (buffer_cell (pack x)) = if x =? -32768 then 0 else x.
Proof.
  intros Hx. destruct (Z.eqb_spec x (-32768)) as [-> | Hne].
  - vm_compute. reflexivity.
  - apply unpack_cell_pack. lia.
Qed.

Lemma pack_unpack_all_samples_witness :
  unpack (buffer_cell (pack (-32768))) = if -32768 =? -32768 then 0 else -32768.
Proof. apply (pack_unpack_all_samples (-32768)). lia. Defined.

(** Packing what was unpacked gives the cell back, for every 16-bit
    cell but the negative zero -32768. *)
Theorem unpack_pack_cell (c : Z) :
  -32768 < c < 32768 ->
  buffer_cell (pack (unpack c)) = c.
Proof.
  intros Hc. rewrite unpack_closed_form by lia.
  destruct (Z.ltb_spec c 0) as [Hneg | Hpos].
  - rewrite buffer_cell_pack by lia.
    destruct (Z.ltb_spec (- (c + 32768)) 0); lia.
  - rewrite buffer_cell_pack by lia.
    destruct (Z.ltb_spec c 0); lia.
Qed.

Lemma unpack_pack_cell_witness : buffer_cell (pack (unpack (-12345))) = -12345.
Proof. apply (unpack_pack_cell (-12345)). lia. Defined.

Lemma clear_low_bits (c k : Z) :
  0 <= k -> Z.ldiff c (Z.ones k) = 2 ^ k * (c / 2 ^ k).
Proof.
  intros Hk. rewrite Z.ldiff_ones_r by exact Hk.
  rewrite Z.shiftl_mul_pow2, Z.shiftr_div_pow2 by exact Hk. lia.
Qed.

(** A cell in which the [k] lowest bitplanes never arrived (their
    bits are zero) unpacks to the sample with its magnitude truncated
    to a multiple of [2 ^ k]: the sign is kept, the magnitude does
    not grow, and less than [2 ^ k] is lost. *)
Theorem unpack_missing_low_bitplanes (x k : Z) :
  -32767 <= x <= 32767 ->
  0 <= k <= 15 ->
  let y := unpack (Z.ldiff (buffer_cell (pack x)) (Z.ones k)) in
  y = Z.sgn x * (2 ^ k * (Z.abs x / 2 ^ k)) /\
  Z.abs y <= Z.abs x /\
  Z.abs x - Z.abs y < 2 ^ k /\
  0 <= x * y.
Proof.
  intros Hx Hk y.
  assert (Hp : 0 < 2 ^ k) by (apply Z.pow_pos_nonneg; lia).
  assert (Hpq : 32768 = 2 ^ (15 - k) * 2 ^ k).
  { rewrite <- Z.pow_add_r by lia. replace (15 - k + k) with 15 by lia. reflexivity. }
  pose proof (Z.mul_div_le (Z.abs x) (2 ^ k) Hp) as Hle.
  pose proof (Z.mod_pos_bound (Z.abs x) (2 ^ k) Hp) as Hmod.
  pose proof (Z.div_mod (Z.abs x) (2 ^ k) ltac:(lia)) as Hdm.
  assert (Hd : 0 <= Z.abs x / 2 ^ k) by (apply Z.div_pos; lia).
  assert (Hm : 0 <= 2 ^ k * (Z.abs x / 2 ^ k)) by (apply Z.mul_nonneg_nonneg; lia).
  set (m := 2 ^ k * (Z.abs x / 2 ^ k)) in *.
  assert (Hy : y = Z.sgn x * m).
  { subst y. rewrite clear_low_bits, buffer_cell_pack by lia.
    destruct (Z.ltb_spec x 0) as [Hneg | Hpos].
    - replace (Z.abs x - 32768) with (Z.abs x + - 2 ^ (15 - k) * 2 ^ k) by lia.
      rewrite Z.div_add by lia.
      replace (2 ^ k * (Z.abs x / 2 ^ k + - 2 ^ (15 - k))) with (m - 32768)
        by (subst m; rewrite Hpq; ring).
      rewrite unpack_closed_form by lia.
      destruct (Z.ltb_spec (m - 32768) 0); [| lia].
      rewrite (Z.sgn_neg x) by lia. lia.
    - replace (2 ^ k * (x / 2 ^ k)) with m
        by (subst m; rewrite (Z.abs_eq x) by lia; reflexivity).
      rewrite unpack_closed_form by lia.
      destruct (Z.ltb_spec m 0); [lia |].
      destruct (Z.eq_dec x 0) as [Hz | Hnz].
      + assert (m = 0) by lia. rewrite Hz. cbn. lia.
      + rewrite (Z.sgn_pos x) by lia. lia. }
  split; [exact Hy |]. rewrite Hy.
  destruct (Z.sgn_spec x) as [[Hs ->] | [[Hs ->] | [Hs ->]]]; nia.
Qed.

Lemma unpack_missing_low_bitplanes_witness :
  let y := unpack (Z.ldiff (buffer_cell (pack (-1000))) (Z.ones 4)) in
  y = Z.sgn (-1000) * (2 ^ 4 * (Z.abs (-1000) / 2 ^ 4)) /\
  Z.abs y <= Z.abs (-1000) /\
  Z.abs (-1000) - Z.abs y < 2 ^ 4 /\
  0 <= -1000 * y.
Proof. apply (unpack_missing_low_bitplanes (-1000) 4); lia. Defined.

End PackerAllCells.

(** ** Further properties of the decorrelation *)

Section DecorrelationShape.

Lemma wrap_zero (w : Z) : 0 < w -> wrap w 0 = 0.
Proof.
  intros Hw. apply wrap_small; [exact Hw |].
  unfold in_range. pose proof (half_width_pos w Hw). lia.
Qed.

(** Two identical channels leave a residue that is zero in every
    frame. *)
Theorem decorrelation_of_equal_channels (w : Z) (dst src : channel) (C : chunk) :
  0 < w ->
  Forall (fun r => fst r = snd r) C ->
  column dst (isub_col w dst src C) = map (fun _ => 0) C.
Proof.
  intros Hw HC. unfold column, isub_col. rewrite map_map.
  induction HC as [| [a b] C Hab _ IH]; [reflexivity |].
  cbn [map]. rewrite IH. f_equal.
  rewrite col_set_col_same. cbn [fst snd] in Hab. subst b.
  replace (col dst (a, a) - col src (a, a)) with 0 by (destruct dst, src; cbn; lia).
  apply wrap_zero, Hw.
Qed.

Lemma decorrelation_of_equal_channels_witness :
  column Ch1 (isub_col 16 Ch1 Ch0 [(7, 7); (-32768, -32768)])
    = map (fun _ => 0) [(7, 7); (-32768, -32768)].
Proof.
  apply (decorrelation_of_equal_channels 16 Ch1 Ch0 [(7, 7); (-32768, -32768)]).
  - lia.
  - repeat constructor.
Defined.

End DecorrelationShape.

(** ** Unpacking and re-correlation against decorrelation and packing *)

Section SendPlayWithoutTransform.
Import Packer.

Lemma int16_sub_add (a b : Z) :
  -32768 <= b < 32768 -> int16 (int16 (b - a) + a) = b.
Proof. intros Hb. apply wrap_sub_add; [lia | exact Hb]. Qed.

Local Abbreviation through_cell :=
  (fun r : Z * Z =>
     (unpack (buffer_cell (pack (fst r))),
      int16 (unpack (buffer_cell (pack (int16 (snd r - fst r))))
             + unpack (buffer_cell (pack (fst r)))))).

Lemma through_cell_chunk (C : chunk) :
  iadd_col 16 Ch1 Ch0 (unpack_chunk (buffer_chunk (pack_chunk (isub_col 16 Ch1 Ch0 C))))
    = map through_cell C.
Proof.
  unfold iadd_col, unpack_chunk, buffer_chunk, pack_chunk, isub_col.
  rewrite !map_map. apply map_ext. intros [a b].
  cbn [fst snd col set_col]. unfold int16. reflexivity.
Qed.

Lemma through_cell_row (r : Z * Z) :
  sample_in_range 16 r ->
  through_cell r = r <-> (fst r <> -32768 /\ int16 (snd r - fst r) <> -32768).
Proof.
  destruct r as [a b]. intros [Ha Hb]. cbn [fst snd] in Ha, Hb |- *.
  unfold in_range in Ha, Hb. change (2 ^ (16 - 1)) with 32768 in Ha, Hb.
  pose proof (wrap_in_range 16 ltac:(lia) (b - a)) as Hd.
  unfold in_range in Hd. change (2 ^ (16 - 1)) with 32768 in Hd.
  fold (int16 (b - a)) in Hd.
  rewrite (pack_unpack_all_samples a), (pack_unpack_all_samples (int16 (b - a))) by lia.
  destruct (Z.eqb_spec a (-32768)) as [Hmin | Hok].
  - split; [| intros [Hc _]; contradiction].
    intros Heq. injection Heq as Heq _. lia.
  - destruct (Z.eqb_spec (int16 (b - a)) (-32768)) as [Hdmin | Hdok].
    + split; [| intros [_ Hc]; contradiction].
      intros Heq. injection Heq as Heq.
      rewrite Z.add_0_l, int16_small in Heq by lia.
      subst b. rewrite Z.sub_diag in Hdmin. discriminate Hdmin.
    + split; [intros _; split; assumption |].
      intros _. rewrite int16_sub_add by lia. reflexivity.
Qed.

Lemma map_fixes_all {A : Type} (f : A -> A) (l : list A) :
  map f l = l <-> Forall (fun x => f x = x) l.
Proof.
  induction l as [| x l IH]; cbn [map].
  - split; [constructor | reflexivity].
  - split.
    + intros Heq. injection Heq as Hx Hl. constructor; [exact Hx | apply IH, Hl].
    + intros Hall. inversion Hall as [| ? ? Hx Hl]; subst.
      apply IH in Hl. rewrite Hx, Hl. reflexivity.
Qed.

(** Without a transform in between, lines 119-123 give back what
    lines 112 and 114-116 were given exactly when no sample of
    channel 0 and no residue is -32768. *)
Theorem play_path_undoes_send_path (C : chunk) :
  Forall (sample_in_range 16) C ->
  play_path Ok (buffer_chunk (pack_chunk (isub_col 16 Ch1 Ch0 C))) = Ok C <->
  Forall (fun r => fst r <> -32768 /\ int16 (snd r - fst r) <> -32768) C.
Proof.
  intros HC. unfold play_path. rewrite through_cell_chunk.
  split.
  - intros Heq. injection Heq as Heq. apply map_fixes_all in Heq.
    apply List.Forall_forall. intros r Hr.
    apply through_cell_row.
    + exact (proj1 (List.Forall_forall _ _) HC r Hr).
    + exact (proj1 (List.Forall_forall _ _) Heq r Hr).
  - intros Hall. f_equal. apply map_fixes_all.
    apply List.Forall_forall. intros r Hr.
    apply through_cell_row.
    + exact (proj1 (List.Forall_forall _ _) HC r Hr).
    + exact (proj1 (List.Forall_forall _ _) Hall r Hr).
Qed.

Lemma play_path_undoes_send_path_witness :
  play_path Ok (buffer_chunk (pack_chunk (isub_col 16 Ch1 Ch0 [(100, -200); (0, -32768)])))
    = Ok [(100, -200); (0, -32768)] <->
  Forall (fun r => fst r <> -32768 /\ int16 (snd r - fst r) <> -32768)
         [(100, -200); (0, -32768)].
Proof.
  apply (play_path_undoes_send_path [(100, -200); (0, -32768)]).
  repeat constructor; simpl; lia.
Defined.

End SendPlayWithoutTransform.

(** ** The slot index *)

Lemma py_index_in_range (len : nat) (i : Z) :
  0 <= i < Z.of_nat len -> py_index len i = Ok (Z.to_nat i).
Proof.
  intros Hi. unfold py_index.
  destruct (Z.leb_spec 0 i); [| lia].
  destruct (Z.ltb_spec i (Z.of_nat len)); [| lia]. reflexivity.
Qed.

(** In a buffer of [cells > 0] cells the slot
    [played_chunk_number % cells] exists for every chunk number, a
    negative one too: neither the division nor the indexing raises. *)
Theorem slot_always_exists {A : Type} (buffer : list A) (played cells : Z) :
  0 < cells ->
  Z.of_nat (length buffer) = cells ->
  exists i a,
    py_mod played cells = Ok i /\
    0 <= i < cells /\
    py_getitem buffer i = Ok a /\
    buffer !! Z.to_nat i = Some a /\
    forall v, py_setitem buffer i v = Ok (<[Z.to_nat i := v]> buffer).
Proof.
  intros Hcells Hlen.
  pose proof (Z.mod_pos_bound played cells Hcells) as Hi.
  assert (Hlt : (Z.to_nat (played mod cells) < length buffer)%nat) by lia.
  destruct (lookup_lt_is_Some_2 buffer _ Hlt) as [a Ha].
  exists (played mod cells), a.
  unfold py_mod, py_getitem, py_setitem.
  destruct (Z.eqb_spec cells 0); [lia |].
  rewrite py_index_in_range by lia. cbn [rbind]. rewrite Ha.
  repeat split; try reflexivity; lia.
Qed.

Lemma slot_always_exists_witness :
  exists i a,
    py_mod (-3) 2 = Ok i /\
    0 <= i < 2 /\
    py_getitem [10; 20] i = Ok a /\
    [10; 20] !! Z.to_nat i = Some a /\
    forall v, py_setitem [10; 20] i v = Ok (<[Z.to_nat i := v]> [10; 20]).
Proof.
  apply (slot_always_exists [10; 20] (-3) 2).
  - lia.
  - reflexivity.
Defined.

(** ** The stereo handler of [Intercom_binaural] *)

Section BinauralHandler.

Variable send : chunk -> session -> result session.
Variable play : chunk -> session -> result (chunk * session).

Lemma py_setitem_of_getitem {A : Type} (l : list A) (i : Z) (a v : A) :
  py_getitem l i = Ok a ->
  exists l', py_setitem l i v = Ok l' /\ py_getitem l' i = Ok v.
Proof using Type.
  intros Hget. unfold py_getitem in Hget.
  apply rbind_ok in Hget as (n & Hn & _).
  exists (<[n := v]> l).
  assert (Hset : py_setitem l i v = Ok (<[n := v]> l)).
  { unfold py_setitem. rewrite Hn. reflexivity. }
  split; [exact Hset | eapply py_getitem_setitem, Hset].
Qed.

(** When the transport leaves the chunk it was given in the cell that
    is played next, the handler hands [play] a session in which that
    cell holds the captured chunk, sample for sample. *)
Theorem binaural_handler_transparent
    (indata outdata : chunk) (self self1 : session) (i : Z) :
  Forall (sample_in_range 16) indata ->
  send (isub_col 16 Ch0 Ch1 indata) self = Ok self1 ->
  py_mod (played_chunk_number self1) (cells_in_buffer self1) = Ok i ->
  py_getitem (_buffer self1) i = Ok (isub_col 16 Ch0 Ch1 indata) ->
  exists buffer,
    py_setitem (_buffer self1) i indata = Ok buffer /\
    py_getitem buffer i = Ok indata /\
    Binaural.record_send_and_play_stereo send play indata outdata self
      = play outdata (set_buffer buffer self1).
Proof using Type.
  intros Hin Hsend Hi Hcell.
  destruct (py_setitem_of_getitem _ _ _ indata Hcell) as (buffer & Hset & Hget).
  exists buffer. split; [exact Hset |]. split; [exact Hget |].
  unfold Binaural.record_send_and_play_stereo.
  rewrite Hsend. cbn [rbind]. rewrite Hi. cbn [rbind]. rewrite Hcell. cbn [rbind].
  destruct (decorrelation_round_trip 16 indata ltac:(lia) Hin) as [Hround _].
  rewrite Hround, Hset. reflexivity.
Qed.

End BinauralHandler.

Lemma binaural_handler_transparent_witness :
  exists buffer,
    py_setitem (_buffer (set_buffer [[(0, 0)]; [(-2, 7)]] Doubles.stereo_session)) 1
      [(5, 7)] = Ok buffer /\
    py_getitem buffer 1 = Ok [(5, 7)] /\
    Binaural.record_send_and_play_stereo Doubles.loopback_send Doubles.device_play
      [(5, 7)] [(0, 0)] Doubles.stereo_session
      = Doubles.device_play [(0, 0)]
          (set_buffer buffer (set_buffer [[(0, 0)]; [(-2, 7)]] Doubles.stereo_session)).
Proof.
  apply (binaural_handler_transparent Doubles.loopback_send Doubles.device_play
           [(5, 7)] [(0, 0)] Doubles.stereo_session
           (set_buffer [[(0, 0)]; [(-2, 7)]] Doubles.stereo_session) 1).
  - repeat constructor; simpl; lia.
  - vm_compute. reflexivity.
  - vm_compute. reflexivity.
  - vm_compute. reflexivity.
Defined.

(** ** Frame lengths through the forward transform *)

Lemma zip_col_keeps_other (v : list Z) (a : chunk) :
  length v = length a ->
  column Ch1 (zip_col Ch0 v a) = column Ch1 a /\
  column Ch0 (zip_col Ch0 v a) = v /\
  length (zip_col Ch0 v a) = length a.
Proof.
  unfold column.
  revert a. induction v as [| x v IH]; intros [| r a] Hlen; try discriminate Hlen.
  - repeat split.
  - cbn in Hlen. injection Hlen as Hlen.
    destruct (IH a Hlen) as (H1 & H0 & Hl).
    cbn [zip_col map length]. rewrite H1, H0, Hl.
    destruct r. repeat split.
Qed.

(** Assigning channel 0 keeps channel 1 and the number of frames. *)
Lemma assign_col0_keeps_residue (v : list Z) (a a' : chunk) :
  assign_col Ch0 v a = Ok a' ->
  column Ch1 a' = column Ch1 a /\ length a' = length a.
Proof.
  unfold assign_col. intros H.
  destruct (Nat.eqb_spec (length v) (length a)) as [Hlen | Hlen].
  - injection H as <-. destruct (zip_col_keeps_other v a Hlen) as (H1 & _ & Hl).
    split; assumption.
  - destruct v as [| x [| y v]]; try discriminate H.
    injection H as <-. unfold column. rewrite length_map, map_map.
    split; [| reflexivity]. apply map_ext. intros [c0 c1]. reflexivity.
Qed.

(** It raises ValueError when the lengths differ and the value has
    two elements or more. *)
Lemma assign_col_length_error (c : channel) (v : list Z) (a : chunk) :
  length v <> length a -> (2 <= length v)%nat ->
  assign_col c v a = Raise ValueError.
Proof.
  intros Hne Hlen. unfold assign_col.
  destruct (Nat.eqb_spec (length v) (length a)); [contradiction |].
  destruct v as [| x [| y v]]; cbn in Hlen; try lia. reflexivity.
Qed.

Section ChunkLength.

Variable send : chunk -> session -> result session.
Variable play : chunk -> session -> result (chunk * session).
Variable wt_wavedec : list Z -> string -> Z -> string -> result (list (list float)).
Variable wt_array_to_coeffs :
  chunk -> list (Z * Z) -> string -> result (list (list (float * float))).
Variable wt_waverec :
  list (list (float * float)) -> string -> string -> result (list (float * float)).
Variable astype_int16 : float -> Z.
Variable around_astype : Z -> float -> Z.

Local Abbreviation handler :=
  (DWT.record_send_and_play_stereo send play wt_wavedec wt_array_to_coeffs
     wt_waverec astype_int16 around_astype).

(** On the send path the transform never sees the residue.  When
    the forward transform returns as many coefficients as the chunk
    has frames, the chunk handed to [send] has that many frames, its
    channel 0 holds the packed coefficients and its channel 1 the
    packed difference [channel1 - channel0], frame by frame; an
    exception of [send] on that chunk is the handler's, and the
    handler returns only if [send] did. *)
Theorem send_path_residue_untransformed
    (indata outdata : chunk) (self : session) (coeffs : list float) :
  DWT.forward_transform wt_wavedec self (column Ch0 (isub_col 16 Ch1 Ch0 indata))
    = Ok coeffs ->
  length coeffs = length indata ->
  exists sent,
    length sent = length indata /\
    column Ch0 sent = map (fun c => Packer.pack (astype_int16 c)) coeffs /\
    column Ch1 sent = map (fun r => Packer.pack (int16 (snd r - fst r))) indata /\
    (forall e, send sent self = Raise e -> handler indata outdata self = Raise e) /\
    (forall r, handler indata outdata self = Ok r -> exists self1, send sent self = Ok self1).
Proof using Type.
  intros Hfwd Hlen.
  set (d := isub_col 16 Ch1 Ch0 indata) in *.
  assert (Hd : length (map astype_int16 coeffs) = length d).
  { subst d. unfold isub_col. rewrite !length_map. exact Hlen. }
  assert (Hassign : assign_col Ch0 (map astype_int16 coeffs) d
                    = Ok (zip_col Ch0 (map astype_int16 coeffs) d)).
  { unfold assign_col. rewrite Hd, Nat.eqb_refl. reflexivity. }
  destruct (zip_col_keeps_other _ _ Hd) as (H1 & H0 & Hl).
  exists (Packer.pack_chunk (zip_col Ch0 (map astype_int16 coeffs) d)).
  assert (Hcol : forall c a,
             column c (Packer.pack_chunk a) = map Packer.pack (column c a)).
  { intros c a. unfold column, Packer.pack_chunk. rewrite !map_map.
    apply map_ext. intros [x y]. destruct c; reflexivity. }
  repeat split.
  - unfold Packer.pack_chunk. rewrite length_map, Hl. subst d.
    unfold isub_col. apply length_map.
  - rewrite Hcol, H0, map_map. reflexivity.
  - rewrite Hcol, H1. subst d. unfold column, isub_col. rewrite !map_map.
    apply map_ext. intros [a b]. reflexivity.
  - intros e Hsend. unfold DWT.record_send_and_play_stereo.
    fold d. rewrite Hfwd. cbn [rbind]. rewrite Hassign. cbn [rbind].
    rewrite Hsend. reflexivity.
  - intros r Hrun. unfold DWT.record_send_and_play_stereo in Hrun.
    fold d in Hrun. rewrite Hfwd in Hrun. cbn [rbind] in Hrun.
    rewrite Hassign in Hrun. cbn [rbind] in Hrun.
    apply rbind_ok in Hrun as (self1 & Hsend & _). exists self1. exact Hsend.
Qed.

(** PyWavelets in periodization mode, as in [CoefficientArrayLength]. *)
Hypothesis wavedec_periodization :
  forall (x : list Z) (wv : string) (level : Z),
    x <> [] ->
    exists coeffs,
      wt_wavedec x wv level "periodization" = Ok coeffs /\
      map length coeffs = DWT.wavedec_lengths (Z.to_nat level) (length x).

(** The coefficient array has exactly as many values as the chunk
    has samples if and only if the number of samples is a multiple
    of 16. *)
Theorem forward_transform_length_iff (self : session) (chunk : list Z) (arr : list float) :
  chunk <> [] ->
  DWT.forward_transform wt_wavedec (DWT.set_dwt_constants self) chunk = Ok arr ->
  length arr = length chunk <-> Nat.divide 16 (length chunk).
Proof using wavedec_periodization.
  intros Hne Hfwd.
  destruct (wavedec_periodization chunk "bior3.5" 4 Hne) as (coeffs & Hdec & Hlen).
  unfold DWT.forward_transform in Hfwd.
  cbn [DWT.set_dwt_constants wavelet levels padding] in Hfwd.
  rewrite Hdec in Hfwd. cbn [rbind] in Hfwd.
  unfold DWT.wt_coeffs_to_array in Hfwd.
  destruct coeffs as [| c cs]; [discriminate Hfwd |].
  cbn [rbind fst] in Hfwd. injection Hfwd as <-.
  change (c ++ concat cs) with (concat (c :: cs)).
  rewrite length_concat_sum, Hlen.
  change (Z.to_nat 4) with 4%nat. change 16%nat with (2 ^ 4)%nat.
  apply wavedec_lengths_sum_iff.
Qed.

(** With the session constants, a chunk whose number of frames is
    not a multiple of 16 makes the handler raise ValueError at the
    assignment of line 113, before anything is sent or played. *)
Theorem handler_rejects_odd_chunk_length (indata outdata : chunk) (self : session) :
  levels self = 4 ->
  padding self = "periodization"%string ->
  indata <> [] ->
  ~ Nat.divide 16 (length indata) ->
  handler indata outdata self = Raise ValueError.
Proof using wavedec_periodization.
  intros Hlevels Hpadding Hne Hdiv.
  assert (Hcol : column Ch0 (isub_col 16 Ch1 Ch0 indata) <> []).
  { destruct indata; [contradiction | discriminate]. }
  assert (Hcollen : length (column Ch0 (isub_col 16 Ch1 Ch0 indata)) = length indata).
  { unfold column, isub_col. rewrite !length_map. reflexivity. }
  destruct (wavedec_periodization _ (wavelet self) 4 Hcol) as (coeffs & Hdec & Hlen).
  unfold DWT.record_send_and_play_stereo, DWT.forward_transform.
  rewrite Hlevels, Hpadding, Hdec. cbn [rbind].
  unfold DWT.wt_coeffs_to_array.
  destruct coeffs as [| c cs]; [reflexivity |].
  cbn [rbind fst].
  rewrite assign_col_length_error; [reflexivity | |].
  - rewrite length_map, length_concat_sum, Hlen, Hcollen.
    unfold isub_col. rewrite length_map.
    intros Heq. apply Hdiv. change 16%nat with (2 ^ 4)%nat.
    apply wavedec_lengths_sum_iff. exact Heq.
  - rewrite length_map, length_concat_sum, Hlen, Hcollen.
    pose proof (wavedec_lengths_sum (Z.to_nat 4) (length indata)) as Hge.
    assert (length indata <> 0%nat) by (destruct indata; [contradiction | discriminate]).
    destruct (Nat.eq_dec (sum_list (DWT.wavedec_lengths (Z.to_nat 4) (length indata)))
                (length indata)) as [Heq | Hneq]; [| lia].
    exfalso. apply Hdiv. change 16%nat with (2 ^ 4)%nat.
    apply wavedec_lengths_sum_iff. exact Heq.
Qed.

End ChunkLength.

Lemma nat_16_not_divides_1 : ~ Nat.divide 16 1.
Proof. intros [k Hk]. lia. Qed.

Lemma send_path_residue_untransformed_witness :
  exists sent,
    length sent = length (repeat (3, 10) 16) /\
    column Ch0 sent
      = map (fun c => Packer.pack (Doubles.astype_int16 c)) (repeat 0%float 16) /\
    column Ch1 sent
      = map (fun r => Packer.pack (int16 (snd r - fst r))) (repeat (3, 10) 16) /\
    (forall e,
       Doubles.loopback_send sent Doubles.ready_session = Raise e ->
       DWT.record_send_and_play_stereo Doubles.loopback_send Doubles.device_play
         Doubles.shaped_wavedec Doubles.block_array_to_coeffs Doubles.checking_waverec
         Doubles.astype_int16 Doubles.around_astype
         (repeat (3, 10) 16) (repeat (0, 0) 16) Doubles.ready_session = Raise e) /\
    (forall r,
       DWT.record_send_and_play_stereo Doubles.loopback_send Doubles.device_play
         Doubles.shaped_wavedec Doubles.block_array_to_coeffs Doubles.checking_waverec
         Doubles.astype_int16 Doubles.around_astype
         (repeat (3, 10) 16) (repeat (0, 0) 16) Doubles.ready_session = Ok r ->
       exists self1, Doubles.loopback_send sent Doubles.ready_session = Ok self1).
Proof.
  apply (send_path_residue_untransformed Doubles.loopback_send Doubles.device_play
           Doubles.shaped_wavedec Doubles.block_array_to_coeffs Doubles.checking_waverec
           Doubles.astype_int16 Doubles.around_astype
           (repeat (3, 10) 16) (repeat (0, 0) 16) Doubles.ready_session
           (repeat 0%float 16)).
  - vm_compute. reflexivity.
  - reflexivity.
Defined.

Lemma forward_transform_length_iff_witness :
  length (repeat 0%float 8) = length [3; 1; 4; 1; 5]
  <-> Nat.divide 16 (length [3; 1; 4; 1; 5]).
Proof.
  apply (forward_transform_length_iff Doubles.shaped_wavedec shaped_wavedec_periodization
           Doubles.stereo_session [3; 1; 4; 1; 5] (repeat 0%float 8)).
  - discriminate.
  - vm_compute. reflexivity.
Defined.

Lemma handler_rejects_odd_chunk_length_witness :
  DWT.record_send_and_play_stereo Doubles.loopback_send Doubles.device_play
    Doubles.shaped_wavedec Doubles.negating_array_to_coeffs Doubles.negating_waverec
    Doubles.astype_int16 Doubles.around_astype [(5, 7)] [(0, 0)] Doubles.stereo_session
    = Raise ValueError.
Proof.
  apply (handler_rejects_odd_chunk_length Doubles.loopback_send Doubles.device_play
           Doubles.shaped_wavedec Doubles.negating_array_to_coeffs
           Doubles.negating_waverec Doubles.astype_int16 Doubles.around_astype
           shaped_wavedec_periodization [(5, 7)] [(0, 0)] Doubles.stereo_session).
  - reflexivity.
  - reflexivity.
  - discriminate.
  - exact nat_16_not_divides_1.
Defined.

(** ** What calibration leaves in the session *)

Lemma slices_from_lengths (start : Z) (c1 c2 : list (list float)) :
  map length c1 = map length c2 ->
  DWT.slices_from start c1 = DWT.slices_from start c2.
Proof.
  revert start c2. induction c1 as [| x c1 IH]; intros start [| y c2] Hlen;
    try discriminate Hlen; [reflexivity |].
  cbn [map] in Hlen. injection Hlen as Hxy Hrest.
  cbn [DWT.slices_from]. rewrite Hxy. f_equal. apply IH, Hrest.
Qed.

Section CalibrationState.

Variable Args : Type.
Variable Intercom_empty_init : Args -> session -> result session.
Variable np_random_randint : Z -> Z -> Z -> result (list Z).
Variable wt_wavedec : list Z -> string -> Z -> string -> result (list (list float)).
Variable libm_log : float -> float.

Lemma probe_range_frame (self self' : session) (range : float) :
  DWT.probe_range np_random_randint wt_wavedec self = Ok (range, self') ->
  exists random coeffs,
    np_random_randint (-32768) 32767 (frames_per_chunk self) = Ok random /\
    wt_wavedec random (wavelet self) (levels self) (padding self) = Ok coeffs /\
    self' = set_slices (DWT.slices_from 0 coeffs) self.
Proof using Type.
  unfold DWT.probe_range. intros H.
  apply rbind_ok in H as (random & Hrandom & H).
  apply rbind_ok in H as (coeffs & Hdec & H).
  apply rbind_ok in H as (flat & Hflat & H).
  apply rbind_ok in H as (mx & _ & H).
  apply rbind_ok in H as (mn & _ & H).
  injection H as _ <-.
  unfold DWT.wt_coeffs_to_array in Hflat.
  destruct coeffs as [| c cs]; [discriminate Hflat |].
  injection Hflat as <-.
  exists random, (c :: cs). auto.
Qed.

(** The slice map stored at calibration is the slice map of every
    chunk that has as many samples as the probe: the layout depends
    on the length only. *)
Theorem slice_map_fits_every_chunk
    (self self' : session) (range : float) (random chunk : list Z) :
  (forall (x : list Z) (wv : string) (level : Z),
      x <> [] ->
      exists coeffs,
        wt_wavedec x wv level "periodization" = Ok coeffs /\
        map length coeffs = DWT.wavedec_lengths (Z.to_nat level) (length x)) ->
  DWT.probe_range np_random_randint wt_wavedec (DWT.set_dwt_constants self)
    = Ok (range, self') ->
  np_random_randint (-32768) 32767 (frames_per_chunk self) = Ok random ->
  chunk <> [] ->
  length chunk = length random ->
  exists coeffs flat,
    wt_wavedec chunk "bior3.5" 4 "periodization" = Ok coeffs /\
    DWT.wt_coeffs_to_array coeffs = Ok flat /\
    snd flat = slices self' /\
    length (slices self') = 5%nat.
Proof using Type.
  intros Hshape Hprobe Hrandom Hne Hlen.
  apply probe_range_frame in Hprobe as (random' & pcoeffs & Hrandom' & Hpdec & ->).
  cbn [DWT.set_dwt_constants frames_per_chunk wavelet levels padding] in Hrandom', Hpdec.
  rewrite Hrandom in Hrandom'. injection Hrandom' as <-.
  assert (Hrne : random <> []).
  { intros ->. destruct chunk; [contradiction | discriminate Hlen]. }
  destruct (Hshape random "bior3.5"%string 4 Hrne) as (pc & Hpc & Hplen).
  rewrite Hpdec in Hpc. injection Hpc as <-.
  destruct (Hshape chunk "bior3.5"%string 4 Hne) as (coeffs & Hdec & Hclen).
  assert (Hsame : map length coeffs = map length pcoeffs).
  { rewrite Hclen, Hplen, Hlen. reflexivity. }
  destruct coeffs as [| c cs].
  { cbn in Hclen. discriminate Hclen. }
  exists (c :: cs), (concat (c :: cs), DWT.slices_from 0 (c :: cs)).
  split; [exact Hdec |]. split; [reflexivity |].
  cbn [snd slices set_slices]. split.
  - apply slices_from_lengths, Hsame.
  - assert (Hl : forall (cs0 : list (list float)) s,
               length (DWT.slices_from s cs0) = length (map length cs0)).
    { induction cs0 as [| x cs0 IH]; intros s; cbn; [reflexivity |].
      rewrite IH. reflexivity. }
    rewrite Hl, Hplen. reflexivity.
Qed.

End CalibrationState.

Lemma slice_map_fits_every_chunk_witness :
  exists coeffs flat,
    Doubles.shaped_wavedec [5] "bior3.5" 4 "periodization" = Ok coeffs /\
    DWT.wt_coeffs_to_array coeffs = Ok flat /\
    snd flat = slices (set_slices [(0, 1); (1, 2); (2, 3); (3, 4); (4, 5)]
                         (DWT.set_dwt_constants Doubles.stereo_session)) /\
    length (slices (set_slices [(0, 1); (1, 2); (2, 3); (3, 4); (4, 5)]
                      (DWT.set_dwt_constants Doubles.stereo_session))) = 5%nat.
Proof.
  apply (slice_map_fits_every_chunk Doubles.zero_probe Doubles.shaped_wavedec
           Doubles.stereo_session
           (set_slices [(0, 1); (1, 2); (2, 3); (3, 4); (4, 5)]
              (DWT.set_dwt_constants Doubles.stereo_session))
           0%float [0] [5]).
  - exact shaped_wavedec_periodization.
  - vm_compute. reflexivity.
  - vm_compute. reflexivity.
  - discriminate.
  - reflexivity.
Defined.

(** ** The plotting script *)

(** The channel numbers given on the command line are accepted
    exactly when all of them are at least 1, and the mapping then
    holds one zero-based, non-negative index per channel. *)
Theorem channel_mapping_zero_based (channels : list Z) :
  (Rfft2.channel_mapping channels = None <-> Exists (fun c => c < 1) channels) /\
  (forall mapping,
     Rfft2.channel_mapping channels = Some mapping ->
     length mapping = length channels /\
     Forall (fun m => 0 <= m) mapping /\
     map (fun m => m + 1) mapping = channels).
Proof.
  unfold Rfft2.channel_mapping.
  destruct (existsb (fun c => c <? 1) channels) eqn:Hany.
  - split; [| intros mapping H; discriminate H].
    split; [intros _ | reflexivity].
    apply existsb_exists in Hany as (c & Hin & Hc).
    apply List.Exists_exists. exists c. split; [exact Hin | lia].
  - split.
    + split; [intros H; discriminate H |].
      intros Hex. apply List.Exists_exists in Hex as (c & Hin & Hc).
      assert (Htrue : existsb (fun c => c <? 1) channels = true).
      { apply existsb_exists. exists c. split; [exact Hin | lia]. }
      congruence.
    + intros mapping H. injection H as <-.
      rewrite length_map, map_map. repeat split.
      * apply List.Forall_forall. intros m Hm.
        apply in_map_iff in Hm as (c & <- & Hin).
        destruct (Z.ltb_spec c 1) as [Hlt | Hge]; [| lia].
        assert (Htrue : existsb (fun c => c <? 1) channels = true).
        { apply existsb_exists. exists c. split; [exact Hin | lia]. }
        congruence.
      * rewrite <- (map_id channels) at 2. apply map_ext. intros c. lia.
Qed.

Section UpdatePlotFacts.

Variable F : Type.
Variable np_empty : nat -> list F.
Hypothesis np_empty_length : forall k, length (np_empty k) = k.

Local Abbreviation pair_row := (fun p : F * F => [fst p; snd p]).

Lemma assign_even_length (v a : list F) :
  length (Rfft2.assign_even F v a) = length a.
Proof using Type.
  assert (H : forall (n : nat) (a0 v0 : list F),
             (length a0 <= n)%nat ->
             length (Rfft2.assign_even F v0 a0) = length a0).
  { induction n as [| n IH]; intros a0 v0 Hn.
    - destruct a0; [destruct v0; reflexivity | cbn in Hn; lia].
    - destruct a0 as [| x [| y a']]; destruct v0 as [| z v']; try reflexivity.
      cbn [Rfft2.assign_even length]. rewrite IH; [reflexivity | cbn in Hn; lia]. }
  apply (H (length a)). lia.
Qed.

(** Writing the first components at the even positions and the
    second ones at the odd positions interleaves the pairs. *)
Lemma interleave_pairs (data : list (F * F)) (a : list F) :
  length a = (2 * length data)%nat ->
  take 1 (Rfft2.assign_even F (map fst data) a)
    ++ Rfft2.assign_even F (map snd data)
         (drop 1 (Rfft2.assign_even F (map fst data) a))
  = concat (map pair_row data).
Proof using Type.
  revert a. induction data as [| [p0 p1] data IH]; intros a Hlen.
  - destruct a; [reflexivity | discriminate Hlen].
  - destruct a as [| x [| y a']]; try (cbn in Hlen; lia).
    cbn [length] in Hlen.
    assert (Hlen' : length a' = (2 * length data)%nat) by lia.
    specialize (IH a' Hlen').
    cbn [map fst snd Rfft2.assign_even take drop app concat].
    pose proof (assign_even_length (map fst data) a') as Hel.
    destruct (Rfft2.assign_even F (map fst data) a') as [| x' rest] eqn:He.
    + (* no pair is left *)
      destruct data as [| q data]; [reflexivity |].
      cbn in Hlen', Hel. lia.
    + cbn [take drop app] in IH. cbn [Rfft2.assign_even].
      destruct (map snd data) as [| s sv] eqn:Hs.
      * destruct data; [| discriminate Hs]. cbn in Hlen'.
        destruct a'; [discriminate He | discriminate Hlen'].
      * rewrite take_0, drop_0 in IH. cbn [app] in IH.
        rewrite <- IH. reflexivity.
Qed.

Lemma reshape_pairs (data : list (F * F)) :
  Rfft2.reshape_rows F (length data) 2 (concat (map pair_row data)) = map pair_row data.
Proof using Type.
  induction data as [| p data IH]; [reflexivity |].
  change (concat (map pair_row (p :: data)))
    with (fst p :: snd p :: concat (map pair_row data)).
  cbn [length map Rfft2.reshape_rows firstn skipn].
  rewrite take_0, drop_0, IH. reflexivity.
Qed.

Lemma replot_two_channels (data : list (F * F)) :
  Rfft2.replot F np_empty 2 data = Ok (map pair_row data).
Proof using np_empty_length.
  unfold Rfft2.replot, Rfft2.assign_stride.
  set (a := np_empty (length data * 2)).
  assert (Ha : length a = (2 * length data)%nat).
  { subst a. rewrite np_empty_length. lia. }
  clearbody a.
  destruct data as [| p data].
  - destruct a; [reflexivity | discriminate Ha].
  - assert (Hdiv : forall k, Nat.div2 (S (2 * k)) = k /\ Nat.div2 (2 * k) = k).
    { intros k. pose proof (Nat.div2_odd (S (2 * k))) as H1.
      pose proof (Nat.div2_odd (2 * k)) as H2.
      destruct (Nat.odd (S (2 * k))), (Nat.odd (2 * k)); cbn [Nat.b2n] in *; lia. }
    rewrite Ha, Nat.sub_0_r, length_map, (proj1 (Hdiv _)), Nat.eqb_refl.
    cbn [rbind]. rewrite take_0, drop_0. cbn [app].
    rewrite assign_even_length, Ha, length_map.
    replace (S (2 * length (p :: data) - 1)) with (2 * length (p :: data))%nat
      by (cbn [length]; lia).
    rewrite (proj2 (Hdiv _)), Nat.eqb_refl. cbn [rbind].
    rewrite interleave_pairs by exact Ha.
    rewrite reshape_pairs. reflexivity.
Qed.

Lemma drain_two_channels (queue : list (list (F * F))) (plotdata : list (list F)) :
  Rfft2.drain F np_empty 2 queue plotdata
    = Ok (fold_left (fun _ data => map pair_row data) queue plotdata).
Proof using np_empty_length.
  revert plotdata. induction queue as [| data queue IH]; intros plotdata; [reflexivity |].
  cbn [Rfft2.drain fold_left]. rewrite replot_two_channels. cbn [rbind]. apply IH.
Qed.

Lemma column_of_pairs (data : list (F * F)) :
  Rfft2.column_of F 0 (map pair_row data) = Ok (map fst data) /\
  Rfft2.column_of F 1 (map pair_row data) = Ok (map snd data).
Proof using Type.
  induction data as [| p data [IH0 IH1]]; [split; reflexivity |].
  cbn [map Rfft2.column_of]. cbn [lookup list_lookup].
  rewrite IH0, IH1. split; reflexivity.
Qed.

(** With two channels, [update_plot] empties the queue and keeps the
    last block: row [k] of [plotdata] holds the two spectra at bin
    [k], line 0 is given the spectrum of channel 0 and line 1 that of
    channel 1, whatever [np.empty] returned. *)
Theorem update_plot_two_channels
    (queue : list (list (F * F))) (data : list (F * F)) (plotdata : list (list F)) :
  Rfft2.update_plot F np_empty 2 (queue ++ [data]) plotdata
    = Ok (map pair_row data, [map fst data; map snd data]).
Proof using np_empty_length.
  unfold Rfft2.update_plot.
  rewrite drain_two_channels, fold_left_app. cbn [fold_left rbind].
  cbn [seq Rfft2.ydata_of].
  destruct (column_of_pairs data) as [-> ->]. reflexivity.
Qed.

(** With any other number of channels, a block of two bins or more
    makes [update_plot] raise ValueError at the strided assignment of
    line 92. *)
Theorem update_plot_needs_two_channels
    (n : nat) (queue : list (list (F * F))) (data : list (F * F))
    (plotdata : list (list F)) :
  n <> 2%nat ->
  (2 <= length data)%nat ->
  Rfft2.update_plot F np_empty n (data :: queue) plotdata = Raise ValueError.
Proof using np_empty_length.
  intros Hn Hdata.
  unfold Rfft2.update_plot. cbn [Rfft2.drain].
  unfold Rfft2.replot, Rfft2.assign_stride.
  rewrite np_empty_length, Nat.sub_0_r, length_map.
  pose proof (Nat.div2_odd (S (length data * n))) as Hodd.
  destruct (Nat.eqb_spec (length data) (Nat.div2 (S (length data * n)))) as [Heq | Hne].
  - exfalso. rewrite <- Heq in Hodd.
    destruct (Nat.odd (S (length data * n))); cbn [Nat.b2n] in Hodd;
      destruct n as [| [| [| n]]]; try contradiction; nia.
  - destruct data as [| p [| q data]]; cbn in Hdata; try lia. reflexivity.
Qed.

End UpdatePlotFacts.

Lemma zeros_length (k : nat) : length (Rfft2.zeros k) = k.
Proof. apply repeat_length. Qed.

Lemma update_plot_needs_two_channels_witness :
  Rfft2.update_plot Z Rfft2.zeros 1 [[(3, 4); (5, 6)]] [[0]; [0]] = Raise ValueError.
Proof.
  apply (update_plot_needs_two_channels Z Rfft2.zeros zeros_length 1 []
           [(3, 4); (5, 6)] [[0]; [0]]).
  - discriminate.
  - simpl. lia.
Defined.

Lemma update_plot_two_channels_witness :
  Rfft2.update_plot Z Rfft2.zeros 2 ([[(9, 9)]] ++ [[(3, 4); (5, 6)]]) []
    = Ok (map (fun p : Z * Z => [fst p; snd p]) [(3, 4); (5, 6)],
          [map fst [(3, 4); (5, 6)]; map snd [(3, 4); (5, 6)]]).
Proof.
  apply (update_plot_two_channels Z Rfft2.zeros zeros_length [[(9, 9)]]
           [(3, 4); (5, 6)] []).
Defined.
